(** * bison-pulse: the live telemetry client

    A shallow embedding of the three pieces of the dashboard that ingest
    detections: the record transform and [getLatest] of [src/lib/api.ts],
    the [BisonStreamManager] of [src/lib/stream.ts], and the buffer and KPI
    computation of the [useBisonStream] hook.

    - JSON numbers are modelled by rationals ([Q]); the double rounding of
      JavaScript arithmetic is not modelled. The KPI effect, which adds and
      divides whatever the buffer holds, takes JavaScript's [+], [/] and
      [Date] as parameters.
    - The platform objects the code drives (EventSource, timers, intervals,
      promises, fetch) are modelled by explicit state in [Stream.World];
      what the network and the clock do is an [Stream.Event]. *)

From stdpp Require Import base list strings.
From Stdlib Require Import ZArith QArith Qround Lia Lqa Ascii.

Local Open Scope string_scope.
Local Open Scope list_scope.

(** ** JSON values, as [JSON.parse] returns them *)
Module Json.

#[warnings="-register-all"]
Inductive value : Type :=
| Undefined
| Null
| Bool (b : bool)
| Num (q : Q)
| Str (s : string)
| Arr (items : list value)
| Obj (props : list (string * value)).

(** ToBoolean: what [v || d] tests. *)
Definition truthy (v : value) : bool :=
  match v with
  | Undefined | Null => false
  | Bool b => b
  | Num q => negb (Qeq_bool q 0)
  | Str s => negb (String.eqb s "")
  | Arr _ | Obj _ => true
  end.

(** [a || b] *)
Definition or_else (a b : value) : value := if truthy a then a else b.

(** The own property [k] of an object whose properties are [props] (their
    keys are distinct after [JSON.parse]); [undefined] when there is none. *)
Fixpoint lookup_prop (k : string) (props : list (string * value)) : value :=
  match props with
  | [] => Undefined
  | (k', v) :: rest => if String.eqb k k' then v else lookup_prop k rest
  end.

(** What a piece of code either returns or throws. *)
Inductive Exn : Type :=
| TypeError
| SyntaxError
| NetworkFailure
| HttpError (status : Z).

Inductive Result (A : Type) : Type :=
| Ok (a : A)
| Thrown (e : Exn).
Arguments Ok {A} a.
Arguments Thrown {A} e.

Definition bind {A B} (r : Result A) (k : A -> Result B) : Result B :=
  match r with
  | Ok a => k a
  | Thrown e => Thrown e
  end.

(** [data.k] for the keys the transform reads (timestamp, bison_count,
    count, movement, fps, source): reading a property of [null] or
    [undefined] throws; an object yields its own property or [undefined];
    a number, string, boolean or array has none of these keys. *)
Definition get (data : value) (k : string) : Result value :=
  match data with
  | Undefined | Null => Thrown TypeError
  | Obj props => Ok (lookup_prop k props)
  | Bool _ | Num _ | Str _ | Arr _ => Ok Undefined
  end.

(** The text of a message or of a response body, seen through what
    [JSON.parse] does with it: it throws a SyntaxError, or returns a value. *)
Inductive Payload : Type :=
| Malformed (text : string)
| Parsed (data : value).

Definition JSON_parse (p : Payload) : Result value :=
  match p with
  | Malformed _ => Thrown SyntaxError
  | Parsed data => Ok data
  end.

End Json.

Import Json.
Notation "'try!' x ':=' r 'in' k" := (Json.bind r (fun x => k))
  (at level 10, x name, r at level 200, k at level 200).

(** ** The objects that flow to the subscriber *)

(** The object literal built by the transform. The source annotates it
    [BisonDetection]; at run time each field holds whatever value the payload
    carried, or the default. *)
Record DetectionObject : Type := mkDetectionObject {
  o_timestamp : value;
  o_count : value;
  o_movement : value;
  o_fps : value;
  o_source : value
}.

(** "Transform your Python data format to our interface": the same five
    lines in [onmessage], [getLatest] and [getWindow]. [now] is the text of
    [new Date().toISOString()]. *)
Definition transform (now : string) (data : value) : Result DetectionObject :=
  try! ts := get data "timestamp" in
  try! bc := get data "bison_count" in
  try! c := get data "count" in
  try! mv := get data "movement" in
  try! f := get data "fps" in
  try! src := get data "source" in
  Ok {| o_timestamp := or_else ts (Str now);
        o_count := or_else bc (or_else c (Num 0));
        o_movement := or_else mv (Str "stationary");
        o_fps := or_else f (Num 0);
        o_source := or_else src (Str "rtsp") |}.

(** ** The [BisonDetection] interface of the types file *)
Module Types.

Inductive Movement : Type := north | south | east | west | stationary.
Inductive Source : Type := rtsp | sample.

Record BisonDetection : Type := mkBisonDetection {
  timestamp : string;
  count : Q;
  movement : Movement;
  fps : Q;
  source : Source
}.

Definition movement_of (s : string) : option Movement :=
  if String.eqb s "north" then Some north
  else if String.eqb s "south" then Some south
  else if String.eqb s "east" then Some east
  else if String.eqb s "west" then Some west
  else if String.eqb s "stationary" then Some stationary
  else None.

Definition source_of (s : string) : option Source :=
  if String.eqb s "rtsp" then Some rtsp
  else if String.eqb s "sample" then Some sample
  else None.

(** An object read at the interface's types, when its fields have them. *)
Definition typed (o : DetectionObject) : option BisonDetection :=
  match o_timestamp o, o_count o, o_movement o, o_fps o, o_source o with
  | Str ts, Num c, Str mv, Num f, Str src =>
      match movement_of mv, source_of src with
      | Some m, Some s => Some (mkBisonDetection ts c m f s)
      | _, _ => None
      end
  | _, _, _, _, _ => None
  end.

(** The data-model invariant of an event: it has the interface's types, its
    count is a non-negative integer and its frame rate is non-negative. *)
Definition is_integer (q : Q) : bool := Qeq_bool q (inject_Z (Qfloor q)).

Definition structurally_valid (o : DetectionObject) : bool :=
  match typed o with
  | Some d => Qle_bool 0 (count d) && is_integer (count d) && Qle_bool 0 (fps d)
  | None => false
  end.

End Types.

(** ** [src/lib/api.ts] *)
Module Api.

(** [Math.random()] draws, in the order [generateMockData] makes them. *)
Record Draws : Type := mkDraws {
  r_count : Q;
  r_movement : Q;
  r_fps : Q;
  r_source : Q
}.

Definition unit_interval (r : Q) : Prop := (0 <= r)%Q /\ (r < 1)%Q.

Definition draws_ok (r : Draws) : Prop :=
  unit_interval (r_count r) /\ unit_interval (r_movement r) /\
  unit_interval (r_fps r) /\ unit_interval (r_source r).

(** [Number(x.toFixed(1))]: the nearest tenth, ties upward. *)
Definition toFixed1 (x : Q) : Q := (Qfloor (x * 10 + (1 # 2)) # 10)%Q.

Definition movements : list value :=
  [Str "north"; Str "south"; Str "east"; Str "west"; Str "stationary"].
Definition sources : list value := [Str "rtsp"; Str "sample"].

(** [arr[Math.floor(r * arr.length)]]; out of range reads [undefined]. *)
Definition pick (arr : list value) (r : Q) : value :=
  match Qfloor (r * inject_Z (Z.of_nat (length arr))) with
  | Zneg _ => Undefined
  | i => nth (Z.to_nat i) arr Undefined
  end.

Definition generateMockData (now : string) (r : Draws) : DetectionObject :=
  {| o_timestamp := Str now;
     o_count := Num (inject_Z (Qfloor (r_count r * 12) + 1));
     o_movement := pick movements (r_movement r);
     o_fps := Num (toFixed1 (20 + r_fps r * 10));
     o_source := pick sources (r_source r) |}.

(** What [fetch] does: it rejects, or resolves with a response. *)
Inductive FetchOutcome : Type :=
| FetchRejected
| Response (status : Z) (body : Payload).

Definition response_ok (status : Z) : bool := (200 <=? status)%Z && (status <=? 299)%Z.

(** The [try] block of [getLatest]. *)
Definition getLatest_try (now : string) (f : FetchOutcome) : Result DetectionObject :=
  match f with
  | FetchRejected => Thrown NetworkFailure
  | Response status body =>
      if response_ok status then
        try! data := JSON_parse body in
        transform now data
      else Thrown (HttpError status)
  end.

(** [getLatest]: the [catch] turns every exception into mock data. The
    boolean tells whether [console.warn] was called. *)
Definition getLatest (now : string) (r : Draws) (f : FetchOutcome) : DetectionObject * bool :=
  match getLatest_try now f with
  | Ok d => (d, false)
  | Thrown _ => (generateMockData now r, true)
  end.

(** [data.map((item) => ({...}))] of [getWindow]: the transform of every
    item in order; the first item without properties throws. [nows i] is the
    text of [new Date().toISOString()] when item [i] is mapped. *)
Fixpoint map_transform (nows : nat -> string) (i : nat) (items : list value)
    : Result (list DetectionObject) :=
  match items with
  | [] => Ok []
  | item :: rest =>
      try! d := transform (nows i) item in
      try! ds := map_transform nows (S i) rest in
      Ok (d :: ds)
  end.

(** The [try] block of [getWindow]: only an array has [map]. *)
Definition getWindow_try (nows : nat -> string) (f : FetchOutcome)
    : Result (list DetectionObject) :=
  match f with
  | FetchRejected => Thrown NetworkFailure
  | Response status body =>
      if response_ok status then
        try! data := JSON_parse body in
        match data with
        | Arr items => map_transform nows 0 items
        | _ => Thrown TypeError
        end
      else Thrown (HttpError status)
  end.

(** One iteration of the loop of [generateMockDataArray]: a mock event whose
    timestamp is replaced by [now - i * intervalMs]. [toISOString] is the
    platform's [Date.prototype.toISOString] on time values. *)
Definition mockPoint (toISOString : Z -> string) (now intervalMs : Z)
    (draws : nat -> Draws) (i : nat) : DetectionObject :=
  let m := generateMockData (toISOString now) (draws i) in
  {| o_timestamp := Str (toISOString (now - Z.of_nat i * intervalMs)%Z);
     o_count := o_count m;
     o_movement := o_movement m;
     o_fps := o_fps m;
     o_source := o_source m |}.

(** [for (let i = ...; i >= 0; i--) data.push(...)] *)
Fixpoint mockLoop (toISOString : Z -> string) (now intervalMs : Z)
    (draws : nat -> Draws) (i : nat) (data : list DetectionObject) : list DetectionObject :=
  let data' := data ++ [mockPoint toISOString now intervalMs draws i] in
  match i with
  | O => data'
  | S j => mockLoop toISOString now intervalMs draws j data'
  end.

(** [generateMockDataArray(minutes)], for a whole number of minutes. *)
Definition generateMockDataArray (toISOString : Z -> string) (now minutes : Z)
    (draws : nat -> Draws) : list DetectionObject :=
  let intervalMs := (minutes * 60 * 1000 / 100)%Z in
  mockLoop toISOString now intervalMs draws 99 [].

(** [getWindow(minutes)]: the [catch] answers every failure with mock data. *)
Definition getWindow (toISOString : Z -> string) (nows : nat -> string) (now minutes : Z)
    (draws : nat -> Draws) (f : FetchOutcome) : list DetectionObject :=
  match getWindow_try nows f with
  | Ok ds => ds
  | Thrown _ => generateMockDataArray toISOString now minutes draws
  end.

End Api.

(** ** [src/lib/stream.ts]: [BisonStreamManager] and the platform it drives *)
Module Stream.

Inductive ReadyState : Type := CONNECTING | OPEN | CLOSED.
Inductive Status : Type := connected | disconnected | error.
Inductive ConnectionType : Type := sse | polling | offline.
Inductive Settled : Type := Pending | Resolved | Rejected.

(** Who handles a rejection of the promise [startSSE] returns: the
    [try]/[catch] of [start], or the [.catch] of the retry timer. *)
Inductive Catch : Type := StartCatch | RetryCatch.

(** A timer set by [setTimeout], and an interval set by [setInterval]. *)
Record Timer : Type := mkTimer { delay : Z; pending : bool }.
Record Interval : Type := mkInterval { period : Z; active : bool }.

(** One call of [startSSE]: the EventSource it created, the timeout it
    armed and the promise it returned. The index of the call in [calls] is
    the identity of all three. *)
Record SSECall : Type := mkCall {
  readyState : ReadyState;
  timeout : Timer;
  promise : Settled;
  catcher : Catch
}.

Definition timeoutArmed (c : SSECall) : bool := pending (timeout c).

(** The fields of the manager; [eventSource] and [pollingInterval] hold
    references into [calls] and [intervals], or [null]. A reference is
    truthy whatever its index: the source tests the object or the timer id. *)
Record Manager : Type := mkManager {
  eventSource : option nat;
  pollingInterval : option nat;
  isUsingSSE : bool;
  reconnectAttempts : nat
}.

Definition maxReconnectAttempts : nat := 3.
Definition connectTimeoutMs : Z := 10000.

Record World : Type := mkWorld {
  this : Manager;
  calls : list SSECall;
  timers : list Timer;
  intervals : list Interval;
  inflight : nat
}.

Definition fresh : World :=
  mkWorld (mkManager None None false 0) [] [] [] 0.

(** What a step lets the outside see: the two callbacks, the console, and
    the channels it opens and releases. *)
Inductive Effect : Type :=
| OnMessage (d : DetectionObject)
| OnStatusChange (s : Status)
| Console (level msg : string)
| NewEventSource (id : nat)
| CloseEventSource (id : nat)
| SetInterval (h : nat) (ms : Z)
| ClearInterval (h : nat).

Definition Action : Type := World -> World * list Effect.

Definition skip : Action := fun w => (w, []).
Definition emit (e : Effect) : Action := fun w => (w, [e]).
(** [a; b] *)
Definition andThen (a b : Action) : Action :=
  fun w => let '(w1, e1) := a w in let '(w2, e2) := b w1 in (w2, e1 ++ e2).
Notation "a >> b" := (andThen a b) (at level 62, left associativity).

Definition setThis (f : Manager -> Manager) : Action :=
  fun w => (mkWorld (f (this w)) (calls w) (timers w) (intervals w) (inflight w), []).
Definition setCall (id : nat) (f : SSECall -> SSECall) : Action :=
  fun w => (mkWorld (this w) (alter f id (calls w)) (timers w) (intervals w) (inflight w), []).
Definition setTimer (k : nat) (f : Timer -> Timer) : Action :=
  fun w => (mkWorld (this w) (calls w) (alter f k (timers w)) (intervals w) (inflight w), []).
Definition setIntervalAt (h : nat) (f : Interval -> Interval) : Action :=
  fun w => (mkWorld (this w) (calls w) (timers w) (alter f h (intervals w)) (inflight w), []).
Definition setInflight (f : nat -> nat) : Action :=
  fun w => (mkWorld (this w) (calls w) (timers w) (intervals w) (f (inflight w)), []).

Definition with_eventSource (v : option nat) (m : Manager) : Manager :=
  mkManager v (pollingInterval m) (isUsingSSE m) (reconnectAttempts m).
Definition with_pollingInterval (v : option nat) (m : Manager) : Manager :=
  mkManager (eventSource m) v (isUsingSSE m) (reconnectAttempts m).
Definition with_isUsingSSE (v : bool) (m : Manager) : Manager :=
  mkManager (eventSource m) (pollingInterval m) v (reconnectAttempts m).
Definition with_reconnectAttempts (v : nat) (m : Manager) : Manager :=
  mkManager (eventSource m) (pollingInterval m) (isUsingSSE m) v.

Definition with_readyState (v : ReadyState) (c : SSECall) : SSECall :=
  mkCall v (timeout c) (promise c) (catcher c).
Definition with_timeoutArmed (v : bool) (c : SSECall) : SSECall :=
  mkCall (readyState c) (mkTimer (delay (timeout c)) v) (promise c) (catcher c).
Definition with_promise (v : Settled) (c : SSECall) : SSECall :=
  mkCall (readyState c) (timeout c) v (catcher c).

(** [clearTimeout(timeout)] and [eventSource.close()] *)
Definition clearTimeout (id : nat) : Action := setCall id (with_timeoutArmed false).
Definition close (id : nat) : Action :=
  setCall id (with_readyState CLOSED) >> emit (CloseEventSource id).

(** [pollData()] up to its first [await]: one more poll is in flight. *)
Definition pollData : Action := setInflight S.

(** [startPolling]: the status callback fires before the interval exists. *)
Definition startPolling : Action :=
  setThis (with_isUsingSSE false) >>
  emit (OnStatusChange connected) >>
  pollData >>
  (fun w =>
     let h := length (intervals w) in
     (mkWorld (with_pollingInterval (Some h) (this w)) (calls w) (timers w)
        (intervals w ++ [mkInterval 2000 true]) (inflight w),
      [SetInterval h 2000])).

(** [resolve()] and [reject(...)] of the promise of call [id]; a settled
    promise stays as it is. The rejection handler runs before any other
    event is taken. *)
Definition resolve (id : nat) : Action :=
  setCall id (fun c => match promise c with Pending => with_promise Resolved c | _ => c end).

Definition reject (id : nat) : Action :=
  fun w =>
    match calls w !! id with
    | Some c =>
        match promise c with
        | Pending =>
            (setCall id (with_promise Rejected) >>
             match catcher c with
             | StartCatch => emit (Console "warn" "SSE failed, falling back to polling:")
             | RetryCatch => skip
             end >>
             startPolling) w
        | _ => (w, [])
        end
    | None => (w, [])
    end.

(** The executor of [startSSE]: a new EventSource becomes
    [this.eventSource] (the old one is not closed), its timeout is armed. *)
Definition startSSE (k : Catch) : Action :=
  fun w =>
    let id := length (calls w) in
    (mkWorld (with_eventSource (Some id) (this w))
       (calls w ++ [mkCall CONNECTING (mkTimer connectTimeoutMs true) Pending k])
       (timers w) (intervals w) (inflight w),
     [NewEventSource id]).

Definition onopen (id : nat) : Action :=
  clearTimeout id >>
  setThis (with_isUsingSSE true) >>
  setThis (with_reconnectAttempts 0) >>
  emit (OnStatusChange connected) >>
  resolve id.

Definition onmessage (p : Payload) (now : string) : Action :=
  match (try! data := JSON_parse p in transform now data) with
  | Ok detection => emit (OnMessage detection)
  | Thrown _ => emit (Console "error" "Failed to parse SSE message:")
  end.

Definition onerror (id : nat) : Action :=
  clearTimeout id >>
  emit (OnStatusChange error) >>
  (fun w =>
     if (reconnectAttempts (this w) <? maxReconnectAttempts)%nat then
       (setThis (fun m => with_reconnectAttempts (S (reconnectAttempts m)) m) >>
        (fun w1 =>
           (mkWorld (this w1) (calls w1)
              (timers w1 ++ [mkTimer (2000 * Z.of_nat (reconnectAttempts (this w1))) true])
              (intervals w1) (inflight w1), []))) w
     else reject id w).

(** The closure of the connect timeout: it closes whatever [this.eventSource]
    holds when it fires, and rejects the promise of its own call. *)
Definition onConnectTimeout (id : nat) : Action :=
  (fun w =>
     match eventSource (this w) with
     | Some cur => close cur w
     | None => skip w
     end) >>
  reject id.

(** The closure of a retry timer. *)
Definition onRetryTimer : Action :=
  fun w =>
    match eventSource (this w) with
    | Some cur =>
        match calls w !! cur with
        | Some c =>
            match readyState c with
            | CLOSED => startSSE RetryCatch w
            | _ => skip w
            end
        | None => skip w
        end
    | None => skip w
    end.

(** How an in-flight [pollData] goes on: the dynamic import fails, or
    [getLatest] is awaited with what [fetch] did. *)
Inductive PollOutcome : Type :=
| ImportFailed
| Fetched (now : string) (r : Api.Draws) (f : Api.FetchOutcome).

Definition pollData_resume (o : PollOutcome) : Action :=
  match o with
  | ImportFailed =>
      emit (Console "error" "Polling failed:") >> emit (OnStatusChange error)
  | Fetched now r f =>
      let '(data, warned) := Api.getLatest now r f in
      (if warned then emit (Console "warn" "API call failed, using mock data:") else skip) >>
      emit (OnMessage data)
  end.

Definition start : Action := startSSE StartCatch.

Definition stop : Action :=
  (fun w =>
     match eventSource (this w) with
     | Some id => (close id >> setThis (with_eventSource None)) w
     | None => skip w
     end) >>
  (fun w =>
     match pollingInterval (this w) with
     | Some h =>
         (setIntervalAt h (fun i => mkInterval (period i) false) >>
          emit (ClearInterval h) >>
          setThis (with_pollingInterval None)) w
     | None => skip w
     end) >>
  emit (OnStatusChange disconnected).

Definition getConnectionType (m : Manager) : ConnectionType :=
  match eventSource m, pollingInterval m with
  | None, None => offline
  | _, _ => if isUsingSSE m then sse else polling
  end.

(** What can happen next: a public call, or something the platform does.
    [Errored id closed]: EventSource [id] fires [error], having either given
    up ([closed], readyState CLOSED) or begun to reconnect by itself. *)
Inductive Event : Type :=
| Start
| Stop
| Opened (id : nat)
| Message (id : nat) (p : Payload) (now : string)
| Errored (id : nat) (closed : bool)
| ConnectTimeout (id : nat)
| RetryTimer (k : nat)
| Tick (h : nat)
| PollSettled (o : PollOutcome).

(** One event, taken when the platform can deliver it: a closed
    EventSource fires nothing, a cleared or fired timer does not fire. *)
Definition step (w : World) (ev : Event) : World * list Effect :=
  match ev with
  | Start => start w
  | Stop => stop w
  | Opened id =>
      match readyState <$> calls w !! id with
      | Some CONNECTING => (setCall id (with_readyState OPEN) >> onopen id) w
      | _ => (w, [])
      end
  | Message id p now =>
      match readyState <$> calls w !! id with
      | Some OPEN => onmessage p now w
      | _ => (w, [])
      end
  | Errored id closed =>
      match readyState <$> calls w !! id with
      | Some CONNECTING | Some OPEN =>
          (setCall id (with_readyState (if closed then CLOSED else CONNECTING)) >>
           onerror id) w
      | _ => (w, [])
      end
  | ConnectTimeout id =>
      match timeoutArmed <$> calls w !! id with
      | Some true => (setCall id (with_timeoutArmed false) >> onConnectTimeout id) w
      | _ => (w, [])
      end
  | RetryTimer k =>
      match pending <$> timers w !! k with
      | Some true => (setTimer k (fun t => mkTimer (delay t) false) >> onRetryTimer) w
      | _ => (w, [])
      end
  | Tick h =>
      match active <$> intervals w !! h with
      | Some true => pollData w
      | _ => (w, [])
      end
  | PollSettled o =>
      match inflight w with
      | S n => (setInflight (fun _ => n) >> pollData_resume o) w
      | O => (w, [])
      end
  end.

(** A run: the world after the events, and everything it let out. *)
Fixpoint run (w : World) (evs : list Event) : World * list Effect :=
  match evs with
  | [] => (w, [])
  | ev :: rest =>
      let '(w1, e1) := step w ev in
      let '(w2, e2) := run w1 rest in
      (w2, e1 ++ e2)
  end.

Definition is_callback (e : Effect) : bool :=
  match e with
  | OnMessage _ | OnStatusChange _ => true
  | _ => false
  end.

Definition callbacks (es : list Effect) : list Effect := List.filter is_callback es.

End Stream.

(** ** The [useBisonStream] hook: history buffer, status and KPIs *)
Module Hook.
Import Types.

Definition MAX_DATA_POINTS : nat := 1800.
Definition KPI_WINDOW_MINUTES : Z := 15.

(** [arr.slice(-n)]: the last [n] entries, all of them when there are fewer. *)
Definition slice_last {A : Type} (n : nat) (arr : list A) : list A :=
  drop (length arr - n) arr.

(** The updater passed to [setDetections]. *)
Definition appendDetection {A : Type} (prev : list A) (detection : A) : list A :=
  let updated := prev ++ [detection] in
  slice_last MAX_DATA_POINTS updated.

Record StreamStatus : Type := mkStreamStatus {
  isLive : bool;
  lastUpdate : option Z;
  connectionType : Stream.ConnectionType
}.

(** The KPI state. Its fields hold what the effect copies or computes from
    the buffered objects, whatever these carry. *)
Record KPIData : Type := mkKPIData {
  currentCount : value;
  averageCount : value;
  kpi_fps : value;
  kpi_lastUpdate : value
}.

Record State (A : Type) : Type := mkState {
  detections : list A;
  status : StreamStatus
}.
Arguments mkState {A} _ _.
Arguments detections {A} _.
Arguments status {A} _.

Definition initial {A : Type} : State A :=
  mkState [] (mkStreamStatus false None Stream.offline).

(** [clock] is the time value of [new Date()]. *)
Definition handleNewDetection {A : Type} (clock : Z) (detection : A) (s : State A) : State A :=
  mkState (appendDetection (detections s) detection)
    (mkStreamStatus true (Some clock) (connectionType (status s))).

(** [ct] is what [getConnectionType()] answers when the updater runs. *)
Definition handleStatusChange {A : Type} (ct : Stream.ConnectionType)
    (connectionStatus : Stream.Status) (s : State A) : State A :=
  mkState (detections s)
    (match connectionStatus with
     | Stream.connected => mkStreamStatus true (lastUpdate (status s)) ct
     | _ => mkStreamStatus false (lastUpdate (status s)) Stream.offline
     end).

(** The hook is the subscriber of the manager: only the two callbacks
    reach it. *)
Definition deliver (clock : Z) (ct : Stream.ConnectionType) (s : State DetectionObject)
    (e : Stream.Effect) : State DetectionObject :=
  match e with
  | Stream.OnMessage d => handleNewDetection clock d s
  | Stream.OnStatusChange cs => handleStatusChange ct cs s
  | _ => s
  end.

Definition deliver_all (clock : Z) (ct : Stream.ConnectionType)
    (s : State DetectionObject) (es : list Stream.Effect) : State DetectionObject :=
  fold_left (deliver clock ct) es s.

(** The buffer after a sequence of events has arrived, one append each. *)
Definition buffer_after {A : Type} (events : list A) : list A :=
  fold_left appendDetection events [].

Section KPI.

(** JavaScript's [a + b] and [a / b] on any two values (double arithmetic on
    numbers, concatenation and conversion on the rest), and the time value of
    [new Date(v)] in milliseconds, [None] for an Invalid Date (whose
    comparisons are all false). *)
Variable js_add : value -> value -> value.
Variable js_div : value -> value -> value.
Variable Date_time : value -> option Z.

Definition windowStart (now : Z) : Z := (now - KPI_WINDOW_MINUTES * 60 * 1000)%Z.

(** [new Date(d.timestamp) >= windowStart] *)
Definition is_recent (now : Z) (d : DetectionObject) : bool :=
  match Date_time (o_timestamp d) with
  | Some t => (windowStart now <=? t)%Z
  | None => false
  end.

(** [recentDetections.reduce((sum, d) => sum + d.count, 0)] *)
Definition sum_counts (recent : list DetectionObject) : value :=
  fold_left (fun sum d => js_add sum (o_count d)) recent (Num 0).

(** [recentDetections.length > 0 ? sum / recentDetections.length : 0] *)
Definition mean_count (recent : list DetectionObject) : value :=
  match recent with
  | [] => Num 0
  | _ => js_div (sum_counts recent) (Num (inject_Z (Z.of_nat (length recent))))
  end.

(** The KPI effect: nothing is set while the buffer is empty. *)
Definition computeKpi (now : Z) (buf : list DetectionObject) (prev : KPIData) : KPIData :=
  match last buf with
  | None => prev
  | Some latest =>
      let recentDetections := List.filter (is_recent now) buf in
      {| currentCount := o_count latest;
         averageCount := mean_count recentDetections;
         kpi_fps := o_fps latest;
         kpi_lastUpdate := o_timestamp latest |}
  end.

(** The window as the specification words it: the 15 minutes that end at
    the current wall-clock time. *)
Definition within_trailing_window (now : Z) (d : DetectionObject) : bool :=
  match Date_time (o_timestamp d) with
  | Some t => (windowStart now <=? t)%Z && (t <=? now)%Z
  | None => false
  end.

Definition mean_over_trailing_window (now : Z) (buf : list DetectionObject) : value :=
  mean_count (List.filter (within_trailing_window now) buf).

End KPI.

(** A [Date_parse] for the one format [toISOString] writes,
    [YYYY-MM-DDTHH:mm:ss.sssZ]; every other text is left unparsed. *)
Definition digit (c : ascii) : option Z :=
  let n := Z.of_nat (nat_of_ascii c) in
  if ((48 <=? n) && (n <=? 57))%Z then Some (n - 48)%Z else None.

Fixpoint digits (acc : Z) (cs : list ascii) : option Z :=
  match cs with
  | [] => Some acc
  | c :: rest =>
      match digit c with
      | Some d => digits (acc * 10 + d)%Z rest
      | None => None
      end
  end.

Definition field (s : string) (start len : nat) : option Z :=
  digits 0%Z (String.list_ascii_of_string (String.substring start len s)).

Definition separators_ok (s : string) : bool :=
  String.eqb (String.substring 4 1 s) "-" && String.eqb (String.substring 7 1 s) "-" &&
  String.eqb (String.substring 10 1 s) "T" && String.eqb (String.substring 13 1 s) ":" &&
  String.eqb (String.substring 16 1 s) ":" && String.eqb (String.substring 19 1 s) "." &&
  String.eqb (String.substring 23 1 s) "Z" && Nat.eqb (String.length s) 24.

(** Days from 1970-01-01 to the civil date, in the proleptic Gregorian
    calendar. *)
Definition days_from_civil (y m d : Z) : Z :=
  (let y' := if m <=? 2 then y - 1 else y in
   let era := y' / 400 in
   let yoe := y' - era * 400 in
   let mp := if m <=? 2 then m + 9 else m - 3 in
   let doy := (153 * mp + 2) / 5 + d - 1 in
   let doe := yoe * 365 + yoe / 4 - yoe / 100 + doy in
   era * 146097 + doe - 719468)%Z.

Definition in_range (lo hi x : Z) : bool := ((lo <=? x) && (x <=? hi))%Z.

Definition isoTime (s : string) : option Z :=
  if separators_ok s then
    y ← field s 0 4; mo ← field s 5 2; d ← field s 8 2;
    h ← field s 11 2; mi ← field s 14 2; sec ← field s 17 2; ms ← field s 20 3;
    if in_range 1 12 mo && in_range 1 31 d && in_range 0 23 h &&
       in_range 0 59 mi && in_range 0 59 sec
    then Some ((((days_from_civil y mo d * 24 + h) * 60 + mi) * 60 + sec) * 1000 + ms)%Z
    else None
  else None.

(** Instances of the three parameters of the KPI effect for the examples:
    [new Date(s)] on a [toISOString] text, and [+] and [/] on two numbers
    whose sum or quotient a double holds exactly (small integers here).
    Operands of other kinds are outside these instances. *)
Definition isoDate (v : value) : option Z :=
  match v with
  | Str s => isoTime s
  | _ => None
  end.

Definition add_numbers (a b : value) : value :=
  match a, b with
  | Num x, Num y => Num (Qred (x + y))
  | _, _ => Undefined
  end.

Definition div_numbers (a b : value) : value :=
  match a, b with
  | Num x, Num y => Num (Qred (x / y))
  | _, _ => Undefined
  end.

End Hook.

(** ** The components that read the hook's output *)
Module Components.

(** [RecentEventsTable]: [data.slice(-20).reverse()] *)
Definition recentData {A : Type} (data : list A) : list A :=
  reverse (Hook.slice_last 20 data).

(** [HeaderStatus]: the text and the colour of the badge. *)
Definition getStatusText (status : Hook.StreamStatus) : string :=
  match Hook.connectionType status with
  | Stream.sse => "Live (SSE)"
  | Stream.polling => "Live (Polling)"
  | Stream.offline => "Offline"
  end.

Definition getStatusColor (status : Hook.StreamStatus) : string :=
  match Hook.connectionType status with
  | Stream.offline => "bg-offline text-white"
  | _ => "bg-live text-white"
  end.

End Components.

(** * Vocabulary of the properties *)

Local Open Scope nat_scope.
Import Stream.

(** A field that holds a value: neither [undefined] nor [null]. *)
Definition defined (v : value) : Prop :=
  match v with
  | Undefined | Null => False
  | _ => True
  end.

(** The properties of an object other than its two count fields. *)
Definition without_counts (props : list (string * value)) : list (string * value) :=
  List.filter (fun kv => negb (String.eqb "bison_count" (fst kv) || String.eqb "count" (fst kv))) props.

(** 12:00 UTC on 1 January 2025, an event stamped an hour later and one
    stamped two minutes earlier. *)
Definition at_noon : Z := 1735732800000.

Definition stamped_ahead : DetectionObject :=
  mkDetectionObject (Str "2025-01-01T13:00:00.000Z") (Num 5) (Str "north") (Num 24) (Str "rtsp").
Definition stamped_recently : DetectionObject :=
  mkDetectionObject (Str "2025-01-01T11:58:00.000Z") (Num 9) (Str "north") (Num 24) (Str "rtsp").

(** The KPI state before the first event. *)
Definition no_kpi : Hook.KPIData := Hook.mkKPIData (Num 0) (Num 0) (Num 0) (Str "").

(** The platform can deliver an [error] on EventSource [id]. *)
Definition can_fail (w : World) (id : nat) : Prop :=
  exists c, calls w !! id = Some c /\ readyState c <> CLOSED.

(** The promise of call [id] is not settled; its connect timeout can fire. *)
Definition promise_pending (w : World) (id : nat) : Prop :=
  promise <$> calls w !! id = Some Pending.

Definition timeout_armed (w : World) (id : nat) : Prop :=
  timeoutArmed <$> calls w !! id = Some true.

(** Interval [h] is the manager's and it ticks. *)
Definition polls (h : nat) (w : World) : Prop :=
  pollingInterval (this w) = Some h /\ active <$> intervals w !! h = Some true.

(** What [startPolling] does to the world. *)
Record starts_polling (w w' : World) : Prop := {
  sp_handle : pollingInterval (this w') = Some (length (intervals w));
  sp_interval : intervals w' = intervals w ++ [mkInterval 2000 true];
  sp_flag : isUsingSSE (this w') = false;
  sp_attempts : reconnectAttempts (this w') = reconnectAttempts (this w);
  sp_timers : timers w' = timers w
}.

(** Polling with nothing left of the stream side: every EventSource is
    closed, no connect timeout is armed, no retry timer is pending. *)
Definition settled_polling (h : nat) (w : World) : Prop :=
  isUsingSSE (this w) = false /\ polls h w /\
  Forall (fun c => readyState c = CLOSED /\ timeoutArmed c = false) (calls w) /\
  Forall (fun t => pending t = false) (timers w).

(** Every event but the two public calls. *)
Definition platform_event (ev : Event) : Prop := ev <> Start /\ ev <> Stop.

(** The failure policy as the specification words it, for one failure
    taken in world [w]: below 3 attempts the counter goes up by one, a retry
    is scheduled after 2000 ms times the new count and polling has not
    begun; from 3 attempts on, the manager polls. *)
Definition spec_failure_policy (w : World) (failure : Event) : Prop :=
  let w' := fst (step w failure) in
  if (reconnectAttempts (this w) <? 3)%nat then
    reconnectAttempts (this w') = S (reconnectAttempts (this w)) /\
    last (timers w') = Some (mkTimer (2000 * Z.of_nat (reconnectAttempts (this w'))) true) /\
    pollingInterval (this w') = None
  else exists h, polls h w'.

(** A step that leaves the manager, the calls, the timers and the
    intervals alone keeps the manager where it is. *)
Definition same_channels (w w' : World) : Prop :=
  this w' = this w /\ calls w' = calls w /\ timers w' = timers w /\
  intervals w' = intervals w.

(** Three stream connections in a row that each fail for good, the retry
    timers firing in between; then the third retry and a fourth failure. *)
Definition three_failures : list Event :=
  [Start; Errored 0 true; RetryTimer 0; Errored 1 true; RetryTimer 1; Errored 2 true].
Definition fourth_failure : list Event :=
  three_failures ++ [RetryTimer 2; Errored 3 true].

(** A manager that polls because its first connection timed out, and
    four [Math.random()] draws of one half. *)
Definition polling_world : World := fst (run fresh [Start; ConnectTimeout 0]).
Definition half : Api.Draws := Api.mkDraws (1 # 2) (1 # 2) (1 # 2) (1 # 2).

(** The events of EventSource [id]. *)
Definition event_of_source (id : nat) (ev : Event) : Prop :=
  ev = Opened id \/ (exists p now, ev = Message id p now) \/ (exists closed, ev = Errored id closed).

(** An EventSource that is connecting or open. *)
Definition is_open (c : SSECall) : bool :=
  match readyState c with
  | CLOSED => false
  | _ => true
  end.

(** The acquisition channels that are live: EventSources not closed, and
    intervals not cleared. *)
Definition open_sources (w : World) : nat := length (List.filter is_open (calls w)).
Definition ticking (w : World) : nat := length (List.filter active (intervals w)).
Definition channels (w : World) : nat := open_sources w + ticking w.

(** Every live channel is the one the manager holds a reference to. *)
Definition owned (w : World) : Prop :=
  (forall id c, calls w !! id = Some c -> is_open c = true -> eventSource (this w) = Some id) /\
  (forall h i, intervals w !! h = Some i -> active i = true -> pollingInterval (this w) = Some h).

(** Every EventSource of [cs] that is connecting or open is [es]. *)
Definition owned_in (es : option nat) (cs : list SSECall) : Prop :=
  forall id c, cs !! id = Some c -> is_open c = true -> es = Some id.

(** Every EventSource that is connecting or open is the manager's
    current one. *)
Definition sources_owned (w : World) : Prop :=
  owned_in (eventSource (this w)) (calls w).

(** An armed connect timeout belongs to an unsettled promise. *)
Definition armed_pending (w : World) : Prop :=
  Forall (fun c => timeoutArmed c = true -> promise c = Pending) (calls w).

(** The hook's [restart]: [stop()] then [start()]. *)
Definition restart : list Event := [Stop; Start].

(** After one [start]: a stream that fails twice while reconnecting and then
    for good leaves two retry timers behind; the first retry fails and starts
    polling, the second opens one more stream while the interval ticks. *)
Definition polling_with_stale_retry : World :=
  fst (run fresh [Start; Errored 0 false; Errored 0 false; Errored 0 true; RetryTimer 0;
                  Errored 1 true; RetryTimer 1]).

(** The same manager after the error that exhausts the second stream's
    retries: [startPolling] runs a second time and the first interval, no
    longer referenced, ticks on beside the second. *)
Definition two_intervals : World := fst (step polling_with_stale_retry (Errored 2 true)).

(** The live channels the manager holds a reference to: what [stop] can
    release. *)
Definition held_source (w : World) : nat :=
  match eventSource (this w) with
  | Some id =>
      match calls w !! id with
      | Some c => if is_open c then 1 else 0
      | None => 0
      end
  | None => 0
  end.

Definition held_interval (w : World) : nat :=
  match pollingInterval (this w) with
  | Some h =>
      match intervals w !! h with
      | Some i => if active i then 1 else 0
      | None => 0
      end
  | None => 0
  end.

Definition held (w : World) : nat := held_source w + held_interval w.

(** A poll is in flight while the manager polls; a response body that is
    not JSON. *)
Definition poll_in_flight : World := fst (step polling_world (Tick 0)).
Definition undecodable : Api.FetchOutcome := Api.Response 200 (Malformed "<html>").

(** A stream that opened once and then failed three times while
    reconnecting by itself; and a manager that has used up its retries. *)
Definition flaky : World :=
  fst (run fresh [Start; Opened 0; Errored 0 false; Errored 0 false; Errored 0 false]).
Definition exhausted : World := fst (run fresh fourth_failure).

(** The time values the mock history is stamped with, oldest first. *)
Definition mockTimes (now minutes : Z) : list Z :=
  map (fun i => (now - Z.of_nat (99 - i) * (minutes * 600))%Z) (seq 0 100).

(** Every item of a history body is an object. *)
Definition all_objects (items : list value) : Prop :=
  Forall (fun item => exists props, item = Obj props) items.

(** Case analysis on a string test of [movement_of] or [source_of]. *)
Ltac string_case s lit :=
  let E := fresh "E" in
  destruct (String.eqb s lit) eqn:E;
  [apply String.eqb_eq in E; subst s; intros _; cbn [In];
   repeat first [left; reflexivity | right] |].

(** * Properties *)

Example isoTime_epoch : Hook.isoTime "1970-01-01T00:00:00.000Z" = Some 0%Z.
Proof. reflexivity. Qed.

Example isoTime_2025 : Hook.isoTime "2025-01-01T12:00:00.000Z" = Some 1735732800000%Z.
Proof. vm_compute. reflexivity. Qed.

(** ** The record transform *)

Lemma or_else_defined (a b : value) : defined b -> defined (or_else a b).
Proof.
  intros Hb. unfold or_else. destruct (truthy a) eqn:Ha; [|exact Hb].
  destruct a; simpl in Ha; try discriminate; exact I.
Qed.

Lemma transform_Obj (now : string) (props : list (string * value)) :
  transform now (Obj props) =
  Ok {| o_timestamp := or_else (lookup_prop "timestamp" props) (Str now);
        o_count := or_else (lookup_prop "bison_count" props)
                     (or_else (lookup_prop "count" props) (Num 0));
        o_movement := or_else (lookup_prop "movement" props) (Str "stationary");
        o_fps := or_else (lookup_prop "fps" props) (Num 0);
        o_source := or_else (lookup_prop "source" props) (Str "rtsp") |}.
Proof. reflexivity. Qed.

Lemma lookup_without_counts (k : string) (props : list (string * value)) :
  k = "bison_count" \/ k = "count" -> lookup_prop k (without_counts props) = Undefined.
Proof.
  intros Hk. induction props as [|[k' v] rest IH]; [reflexivity|].
  unfold without_counts in *. cbn [List.filter fst].
  destruct (String.eqb "bison_count" k') eqn:E1; cbn [orb negb]; [exact IH|].
  destruct (String.eqb "count" k') eqn:E2; cbn [orb negb]; [exact IH|].
  cbn [lookup_prop]. destruct Hk as [-> | ->]; [rewrite E1 | rewrite E2]; exact IH.
Qed.

(** The transform throws on [null], the one JSON value that has no
    properties to read. *)
Example transform_null (now : string) : transform now Null = Thrown TypeError.
Proof. reflexivity. Qed.

(** C7, as stated, fails: a record whose count is negative and whose
    movement is outside the five directions is passed through unchanged, so
    the event built from it breaks the data-model invariant. *)
Lemma transform_keeps_invalid_values :
  exists d,
    transform "2025-01-01T00:00:00.000Z"
      (Obj [("count", Num (-3)); ("movement", Str "up")]) = Ok d /\
    o_count d = Num (-3) /\
    o_movement d = Str "up" /\
    Types.structurally_valid d = false.
Proof. eexists. split; [reflexivity|]. repeat split. Qed.

(** C7, amended: the transform of an object never throws and leaves no field
    undefined; each field is the payload's value when that is truthy and the
    fixed default otherwise (no validation of the value); a count given under
    either name yields the same [count]; an empty record yields the defaults. *)
Theorem transform_total_defaults (now : string) (props : list (string * value)) :
  transform now (Obj props) =
    Ok {| o_timestamp := or_else (lookup_prop "timestamp" props) (Str now);
          o_count := or_else (lookup_prop "bison_count" props)
                       (or_else (lookup_prop "count" props) (Num 0));
          o_movement := or_else (lookup_prop "movement" props) (Str "stationary");
          o_fps := or_else (lookup_prop "fps" props) (Num 0);
          o_source := or_else (lookup_prop "source" props) (Str "rtsp") |} /\
  (exists d, transform now (Obj props) = Ok d /\
     defined (o_timestamp d) /\ defined (o_count d) /\ defined (o_movement d) /\
     defined (o_fps d) /\ defined (o_source d)) /\
  (forall v, exists d1 d2,
     transform now (Obj (("bison_count", v) :: without_counts props)) = Ok d1 /\
     transform now (Obj (("count", v) :: without_counts props)) = Ok d2 /\
     o_count d1 = o_count d2 /\ o_count d1 = or_else v (Num 0)) /\
  transform now (Obj []) =
    Ok {| o_timestamp := Str now; o_count := Num 0; o_movement := Str "stationary";
          o_fps := Num 0; o_source := Str "rtsp" |}.
Proof.
  split; [apply transform_Obj|]. split; [|split].
  - eexists. split; [apply transform_Obj|]. simpl.
    repeat split; repeat apply or_else_defined; exact I.
  - intros v. do 2 eexists.
    split; [apply transform_Obj|]. split; [apply transform_Obj|].
    cbn [o_count lookup_prop String.eqb Ascii.eqb Bool.eqb fst].
    rewrite !lookup_without_counts by auto.
    unfold or_else at 2 4. simpl.
    split; [|reflexivity].
    unfold or_else. destruct (truthy v); reflexivity.
  - reflexivity.
Qed.

(** C10: when [bison_count] is present but falsy the count comes from
    [count] if that is truthy and is 0 otherwise; every field is chosen by
    the truthiness of the value read, never by the presence of the key. *)
Theorem transform_selects_by_truthiness (now : string) (props : list (string * value)) :
  truthy (lookup_prop "bison_count" props) = false ->
  transform now (Obj props) =
  Ok {| o_timestamp := if truthy (lookup_prop "timestamp" props)
                       then lookup_prop "timestamp" props else Str now;
        o_count := if truthy (lookup_prop "count" props)
                   then lookup_prop "count" props else Num 0;
        o_movement := if truthy (lookup_prop "movement" props)
                      then lookup_prop "movement" props else Str "stationary";
        o_fps := if truthy (lookup_prop "fps" props)
                 then lookup_prop "fps" props else Num 0;
        o_source := if truthy (lookup_prop "source" props)
                    then lookup_prop "source" props else Str "rtsp" |}.
Proof.
  intros Hbc. rewrite transform_Obj. unfold or_else. rewrite Hbc. reflexivity.
Qed.

Lemma transform_selects_by_truthiness_witness :
  transform "2025-01-01T00:00:00.000Z"
    (Obj [("bison_count", Num 0); ("count", Num 4); ("fps", Num 0); ("movement", Str "")]) =
  Ok {| o_timestamp := Str "2025-01-01T00:00:00.000Z"; o_count := Num 4;
        o_movement := Str "stationary"; o_fps := Num 0; o_source := Str "rtsp" |}.
Proof.
  apply (transform_selects_by_truthiness "2025-01-01T00:00:00.000Z"
           [("bison_count", Num 0); ("count", Num 4); ("fps", Num 0); ("movement", Str "")]).
  reflexivity.
Defined.

(** ** [getLatest] and the mock generator *)

Lemma Qfloor_bounds (x : Q) (a b : Z) :
  (inject_Z a <= x)%Q -> (x < inject_Z (b + 1))%Q -> (a <= Qfloor x <= b)%Z.
Proof.
  intros Ha Hb. split.
  - rewrite <- (Qfloor_Z a). apply Qfloor_resp_le, Ha.
  - assert (H : (inject_Z (Qfloor x) < inject_Z (b + 1))%Q)
      by (eapply Qle_lt_trans; [apply Qfloor_le | exact Hb]).
    rewrite <- Zlt_Qlt in H. lia.
Qed.

Lemma mock_count_range (r : Q) :
  Api.unit_interval r -> (1 <= Qfloor (r * 12) + 1 <= 12)%Z.
Proof.
  intros [H0 H1].
  assert (H : (0 <= Qfloor (r * 12) <= 11)%Z); [|lia].
  apply Qfloor_bounds.
  - change (inject_Z 0) with 0%Q. lra.
  - change (inject_Z (11 + 1)) with 12%Q. lra.
Qed.

Lemma mock_fps_range (r : Q) :
  Api.unit_interval r ->
  (20 <= Api.toFixed1 (20 + r * 10))%Q /\ (Api.toFixed1 (20 + r * 10) <= 30)%Q.
Proof.
  intros [H0 H1]. unfold Api.toFixed1.
  assert (H : (200 <= Qfloor ((20 + r * 10) * 10 + (1 # 2)) <= 300)%Z).
  { apply Qfloor_bounds.
    - change (inject_Z 200) with 200%Q. lra.
    - change (inject_Z (300 + 1)) with 301%Q. lra. }
  set (k := Qfloor _) in *. unfold Qle. cbn [Qnum Qden]. lia.
Qed.

Lemma pick_movements (r : Q) :
  Api.unit_interval r ->
  exists mv m, Api.pick Api.movements r = Str mv /\ Types.movement_of mv = Some m.
Proof.
  intros [H0 H1]. unfold Api.pick.
  change (inject_Z (Z.of_nat (length Api.movements))) with 5%Q.
  assert (H : (0 <= Qfloor (r * 5) <= 4)%Z).
  { apply Qfloor_bounds.
    - change (inject_Z 0) with 0%Q. lra.
    - change (inject_Z (4 + 1)) with 5%Q. lra. }
  destruct (Qfloor _) as [|p|p]; [| |lia].
  - eexists _, _. split; reflexivity.
  - assert (Hp : (p = 1 \/ p = 2 \/ p = 3 \/ p = 4)%positive) by lia.
    destruct Hp as [-> | [-> | [-> | ->]]]; eexists _, _; split; reflexivity.
Qed.

Lemma pick_sources (r : Q) :
  Api.unit_interval r ->
  exists src s, Api.pick Api.sources r = Str src /\ Types.source_of src = Some s.
Proof.
  intros [H0 H1]. unfold Api.pick.
  change (inject_Z (Z.of_nat (length Api.sources))) with 2%Q.
  assert (H : (0 <= Qfloor (r * 2) <= 1)%Z).
  { apply Qfloor_bounds.
    - change (inject_Z 0) with 0%Q. lra.
    - change (inject_Z (1 + 1)) with 2%Q. lra. }
  destruct (Qfloor _) as [|p|p]; [| |lia].
  - eexists _, _. split; reflexivity.
  - assert (Hp : (p = 1)%positive) by lia. subst p. eexists _, _. split; reflexivity.
Qed.

Lemma valid_fields (ts : string) (c : Z) (q : Q) (mv src : string)
    (m : Types.Movement) (s : Types.Source) :
  (0 <= c)%Z -> (0 <= q)%Q ->
  Types.movement_of mv = Some m -> Types.source_of src = Some s ->
  Types.structurally_valid
    (mkDetectionObject (Str ts) (Num (inject_Z c)) (Str mv) (Num q) (Str src)) = true.
Proof.
  intros Hc Hq Hm Hs. unfold Types.structurally_valid, Types.typed.
  cbn [o_timestamp o_count o_movement o_fps o_source]. rewrite Hm, Hs.
  cbn [Types.count Types.fps]. unfold Types.is_integer. rewrite Qfloor_Z, Qeq_bool_refl.
  apply andb_true_intro. split; [apply andb_true_intro; split; [|reflexivity]|].
  - apply Qle_bool_iff. change 0%Q with (inject_Z 0). rewrite <- Zle_Qle. exact Hc.
  - apply Qle_bool_iff. exact Hq.
Qed.

Lemma mock_fields (now : string) (r : Api.Draws) :
  Api.draws_ok r ->
  exists c q mv src m s,
    Api.generateMockData now r =
      mkDetectionObject (Str now) (Num (inject_Z c)) (Str mv) (Num q) (Str src) /\
    (1 <= c <= 12)%Z /\ (20 <= q)%Q /\ (q <= 30)%Q /\
    Types.movement_of mv = Some m /\ Types.source_of src = Some s.
Proof.
  intros (Hc & Hm & Hf & Hs).
  destruct (pick_movements _ Hm) as (mv & m & Hmv & Hm').
  destruct (pick_sources _ Hs) as (src & s & Hsrc & Hs').
  destruct (mock_fps_range _ Hf) as [Hlo Hhi].
  exists (Qfloor (Api.r_count r * 12) + 1)%Z, (Api.toFixed1 (20 + Api.r_fps r * 10)), mv, src, m, s.
  split; [unfold Api.generateMockData; rewrite Hmv, Hsrc; reflexivity|].
  split; [apply mock_count_range, Hc|]. repeat split; assumption.
Qed.

Lemma movement_of_In (mv : string) (m : Types.Movement) :
  Types.movement_of mv = Some m -> In (Str mv) Api.movements.
Proof.
  unfold Types.movement_of, Api.movements.
  string_case mv "north". string_case mv "south". string_case mv "east".
  string_case mv "west". string_case mv "stationary". discriminate.
Qed.

Lemma source_of_In (src : string) (s : Types.Source) :
  Types.source_of src = Some s -> In (Str src) Api.sources.
Proof.
  unfold Types.source_of, Api.sources.
  string_case src "rtsp". string_case src "sample". discriminate.
Qed.

(** C9: [getLatest] has a result for every outcome of [fetch]; a rejected
    fetch, a non-2xx status and a body that is not JSON are all caught and
    answered with mock data: an event whose timestamp is the current time,
    whose count is an integer in 1..12 (each of them for some draw), whose
    frame rate is in 20..30, whose movement is one of the five directions and
    whose source is one of the two tags; the poll that awaited it hands that
    event to the event callback, so each tick of the polling interval ends in
    an event whatever became of the request. *)
Theorem getLatest_never_rejects (now : string) (r : Api.Draws) (f : Api.FetchOutcome) :
  Api.draws_ok r ->
  (f = Api.FetchRejected \/
   (exists st body, f = Api.Response st body /\ Api.response_ok st = false) \/
   (exists st text, f = Api.Response st (Malformed text)) ->
   Api.getLatest now r f = (Api.generateMockData now r, true)) /\
  (exists c q mv src,
     Api.generateMockData now r =
       mkDetectionObject (Str now) (Num (inject_Z c)) (Str mv) (Num q) (Str src) /\
     (1 <= c <= 12)%Z /\ (20 <= q)%Q /\ (q <= 30)%Q /\
     In (Str mv) Api.movements /\ In (Str src) Api.sources) /\
  Types.structurally_valid (Api.generateMockData now r) = true /\
  (forall c, (1 <= c <= 12)%Z ->
     exists r', Api.draws_ok r' /\ o_count (Api.generateMockData now r') = Num (inject_Z c)) /\
  (forall v, In v Api.movements ->
     exists r', Api.draws_ok r' /\ o_movement (Api.generateMockData now r') = v) /\
  (forall v, In v Api.sources ->
     exists r', Api.draws_ok r' /\ o_source (Api.generateMockData now r') = v) /\
  (forall w n, Stream.inflight w = S n ->
     exists w' logs,
       Stream.step w (Stream.PollSettled (Stream.Fetched now r f)) =
         (w', logs ++ [Stream.OnMessage (fst (Api.getLatest now r f))]) /\
       Stream.callbacks logs = []) /\
  (forall w h, Stream.active <$> Stream.intervals w !! h = Some true ->
     exists w' logs,
       Stream.run w [Stream.Tick h; Stream.PollSettled (Stream.Fetched now r f)] =
         (w', logs ++ [Stream.OnMessage (fst (Api.getLatest now r f))]) /\
       Stream.callbacks logs = []).
Proof.
  intros Hr.
  destruct (mock_fields now r Hr) as (c & q & mv & src & m & s & Hmock & Hc & Hlo & Hhi & Hm & Hs).
  split; [|split; [|split; [|split; [|split; [|split; [|split]]]]]].
  - intros [-> | [(st & body & -> & Hok) | (st & text & ->)]].
    + reflexivity.
    + unfold Api.getLatest, Api.getLatest_try. rewrite Hok. reflexivity.
    + unfold Api.getLatest, Api.getLatest_try.
      destruct (Api.response_ok st); reflexivity.
  - exists c, q, mv, src. split; [exact Hmock|]. repeat split; try assumption.
    + apply Hc.
    + apply Hc.
    + apply (movement_of_In mv m Hm).
    + apply (source_of_In src s Hs).
  - rewrite Hmock. apply (valid_fields now c q mv src m s); [lia | lra | exact Hm | exact Hs].
  - intros c' Hc'. exists (Api.mkDraws ((c' - 1) # 12) 0 0 0). split.
    + unfold Api.draws_ok, Api.unit_interval. cbn [Api.r_count Api.r_movement Api.r_fps Api.r_source].
      unfold Qle, Qlt. cbn. lia.
    + unfold Api.generateMockData. cbn [o_count Api.r_count]. do 2 f_equal.
      rewrite (Qfloor_comp (((c' - 1) # 12) * 12) (inject_Z (c' - 1))).
      * rewrite Qfloor_Z. lia.
      * unfold Qeq. cbn. lia.
  - assert (Hok : forall a b, (0 <= a < b)%Z -> (b <= 5)%Z ->
              Api.draws_ok (Api.mkDraws 0 (a # Z.to_pos b) 0 0)).
    { intros a b Ha Hb. unfold Api.draws_ok, Api.unit_interval.
      cbn [Api.r_count Api.r_movement Api.r_fps Api.r_source]. unfold Qle, Qlt. cbn.
      rewrite Z2Pos.id by lia. lia. }
    intros v [<- | [<- | [<- | [<- | [<- | []]]]]].
    + exists (Api.mkDraws 0 (0 # 5) 0 0). split; [apply (Hok 0 5)%Z; lia | reflexivity].
    + exists (Api.mkDraws 0 (1 # 5) 0 0). split; [apply (Hok 1 5)%Z; lia | reflexivity].
    + exists (Api.mkDraws 0 (2 # 5) 0 0). split; [apply (Hok 2 5)%Z; lia | reflexivity].
    + exists (Api.mkDraws 0 (3 # 5) 0 0). split; [apply (Hok 3 5)%Z; lia | reflexivity].
    + exists (Api.mkDraws 0 (4 # 5) 0 0). split; [apply (Hok 4 5)%Z; lia | reflexivity].
  - assert (Hok : forall a, (0 <= a < 2)%Z -> Api.draws_ok (Api.mkDraws 0 0 0 (a # 2))).
    { intros a Ha. unfold Api.draws_ok, Api.unit_interval.
      cbn [Api.r_count Api.r_movement Api.r_fps Api.r_source]. unfold Qle, Qlt. cbn. lia. }
    intros v [<- | [<- | []]].
    + exists (Api.mkDraws 0 0 0 (0 # 2)). split; [apply Hok; lia | reflexivity].
    + exists (Api.mkDraws 0 0 0 (1 # 2)). split; [apply Hok; lia | reflexivity].
  - intros w n Hn. unfold Stream.step. rewrite Hn.
    unfold Stream.andThen, Stream.setInflight, Stream.pollData_resume.
    destruct (Api.getLatest now r f) as [d warned]. cbn [fst].
    destruct warned; unfold Stream.andThen, Stream.emit, Stream.skip; cbn.
    + eexists _, [_]. split; reflexivity.
    + eexists _, []. split; reflexivity.
  - intros w h Hh. cbn [Stream.run]. unfold Stream.step at 1. rewrite Hh.
    unfold Stream.pollData, Stream.setInflight, Stream.step. cbn [Stream.inflight].
    unfold Stream.andThen, Stream.setInflight, Stream.pollData_resume.
    destruct (Api.getLatest now r f) as [d warned]. cbn [fst].
    destruct warned; unfold Stream.andThen, Stream.emit, Stream.skip; cbn.
    + eexists _, [_]. split; reflexivity.
    + eexists _, []. split; reflexivity.
Qed.

Lemma getLatest_never_rejects_witness :
  Api.getLatest "2025-01-01T00:00:00.000Z"
    (Api.mkDraws (1 # 2) (1 # 2) (1 # 2) (1 # 2)) Api.FetchRejected =
  (Api.generateMockData "2025-01-01T00:00:00.000Z"
     (Api.mkDraws (1 # 2) (1 # 2) (1 # 2) (1 # 2)), true).
Proof.
  refine (proj1 (getLatest_never_rejects "2025-01-01T00:00:00.000Z"
             (Api.mkDraws (1 # 2) (1 # 2) (1 # 2) (1 # 2)) Api.FetchRejected _) _).
  - unfold Api.draws_ok, Api.unit_interval. simpl. unfold Qle, Qlt. simpl. lia.
  - left. reflexivity.
Defined.

(** ** The history buffer *)

Section Buffer.
Context {A : Type}.
Implicit Types (l events : list A) (x e : A).

Lemma slice_last_length (n : nat) l : length (Hook.slice_last n l) = min (length l) n.
Proof. unfold Hook.slice_last. rewrite length_drop. lia. Qed.

Lemma slice_last_snoc (n : nat) l x :
  Hook.slice_last (S n) (l ++ [x]) = Hook.slice_last n l ++ [x].
Proof.
  unfold Hook.slice_last. rewrite length_app. cbn [length].
  replace (length l + 1 - S n) with (length l - n) by lia.
  apply drop_app_le. lia.
Qed.

Lemma slice_last_idem (n : nat) l x :
  Hook.slice_last (S n) (Hook.slice_last (S n) l ++ [x]) = Hook.slice_last (S n) (l ++ [x]).
Proof.
  rewrite !slice_last_snoc. f_equal.
  unfold Hook.slice_last. rewrite drop_drop, length_drop. f_equal. lia.
Qed.

Lemma buffer_after_snoc events e :
  Hook.buffer_after (events ++ [e]) = Hook.appendDetection (Hook.buffer_after events) e.
Proof. unfold Hook.buffer_after. rewrite fold_left_app. reflexivity. Qed.

Lemma buffer_after_slice events :
  Hook.buffer_after events = Hook.slice_last Hook.MAX_DATA_POINTS events.
Proof.
  induction events as [|e events IH] using rev_ind.
  - reflexivity.
  - rewrite buffer_after_snoc, IH. unfold Hook.appendDetection.
    change Hook.MAX_DATA_POINTS with (S 1799). apply slice_last_idem.
Qed.

Lemma appendDetection_last l e : last (Hook.appendDetection l e) = Some e.
Proof.
  unfold Hook.appendDetection. change Hook.MAX_DATA_POINTS with (S 1799).
  rewrite slice_last_snoc. apply last_snoc.
Qed.

End Buffer.

(** C2: whatever events arrive, after each of them the buffer has at most
    1800 entries; it holds the last min(N, 1800) of the N events, in
    arrival order; once more than 1800 have arrived, the event that arrived
    1801 appends ago is gone. *)
Theorem buffer_bounded_fifo {A : Type} (events : list A) :
  (forall n, length (Hook.buffer_after (take n events)) <= 1800) /\
  length (Hook.buffer_after events) = min (length events) 1800 /\
  Hook.buffer_after events = drop (length events - 1800) events /\
  (1800 < length events -> NoDup events ->
   forall e, events !! (length events - 1801) = Some e -> e ∉ Hook.buffer_after events).
Proof.
  change 1800 with Hook.MAX_DATA_POINTS.
  split; [|split; [|split]].
  - intros n. rewrite buffer_after_slice, slice_last_length. lia.
  - rewrite buffer_after_slice. apply slice_last_length.
  - apply buffer_after_slice.
  - intros Hlen Hnd e He Hin. rewrite buffer_after_slice in Hin.
    unfold Hook.slice_last in Hin.
    apply list_elem_of_lookup in Hin as [j Hj]. rewrite lookup_drop in Hj.
    pose proof (NoDup_lookup _ _ _ _ Hnd He Hj) as Heq.
    change Hook.MAX_DATA_POINTS with 1800 in *. lia.
Qed.

Lemma buffer_bounded_fifo_witness :
  0 ∉ Hook.buffer_after (seq 0 1801).
Proof.
  refine (proj2 (proj2 (proj2 (buffer_bounded_fifo (seq 0 1801)))) _ _ 0 _).
  - rewrite length_seq. lia.
  - apply NoDup_seq.
  - rewrite length_seq. reflexivity.
Defined.

(** ** The KPI snapshot *)

Section KpiFacts.
Variable Date_time : value -> option Z.

Lemma is_recent_spec (now : Z) (d : DetectionObject) :
  Hook.is_recent Date_time now d = true <->
  exists t, Date_time (o_timestamp d) = Some t /\ (now - 900000 <= t)%Z.
Proof.
  unfold Hook.is_recent, Hook.windowStart, Hook.KPI_WINDOW_MINUTES.
  destruct (Date_time (o_timestamp d)) as [t|].
  - rewrite Z.leb_le. split.
    + intros H. exists t. split; [reflexivity | lia].
    + intros (t' & [= <-] & H). lia.
  - split; [discriminate | intros (t & [=] & _)].
Qed.

Variable js_add : value -> value -> value.

(** Adding whole counts from left to right is exact as long as the running
    total is one a double holds exactly. *)
Lemma sum_whole_counts (recent : list DetectionObject) (cs : list Z) (acc : Z) :
  (forall x y : Z, (0 <= x)%Z -> (0 <= y)%Z -> (x + y <= 2 ^ 53)%Z ->
     js_add (Num (inject_Z x)) (Num (inject_Z y)) = Num (inject_Z (x + y))) ->
  map o_count recent = map (fun c => Num (inject_Z c)) cs ->
  Forall (fun c => (0 <= c)%Z) cs ->
  (0 <= acc)%Z ->
  (acc + fold_right Z.add 0%Z cs <= 2 ^ 53)%Z ->
  fold_left (fun sum d => js_add sum (o_count d)) recent (Num (inject_Z acc)) =
  Num (inject_Z (acc + fold_right Z.add 0%Z cs)).
Proof.
  intros Hadd. revert cs acc.
  induction recent as [|d recent IH]; intros [|c cs] acc Hmap Hcs Hacc Hle;
    try discriminate Hmap.
  - cbn. rewrite Z.add_0_r. reflexivity.
  - cbn [map] in Hmap. injection Hmap as Hd Hmap. inversion Hcs as [|? ? Hc Hcs']; subst.
    assert (Hsum : (0 <= fold_right Z.add 0 cs)%Z).
    { clear -Hcs'. induction Hcs'; cbn; lia. }
    cbn [fold_right] in Hle. cbn [fold_left fold_right]. rewrite Hd, Hadd by lia.
    rewrite (IH cs (acc + c)%Z Hmap Hcs') by lia. do 2 f_equal. lia.
Qed.

End KpiFacts.

Lemma add_numbers_whole (x y : Z) :
  Hook.add_numbers (Num (inject_Z x)) (Num (inject_Z y)) = Num (inject_Z (x + y)).
Proof.
  unfold Hook.add_numbers. f_equal.
  rewrite <- inject_Z_plus. unfold Qred, inject_Z.
  pose proof (Z.ggcd_gcd (x + y) 1) as Hg.
  pose proof (Z.ggcd_correct_divisors (x + y) 1) as Hd.
  destruct (Z.ggcd (x + y) 1) as [g [aa bb]]. cbn [fst snd] in *.
  rewrite Z.gcd_1_r in Hg. subst g. destruct Hd as [Ha Hb].
  rewrite Z.mul_1_l in Ha, Hb. subst aa bb. reflexivity.
Qed.

(** The second example scenario of the KPI: counts 5 and 9 stamped 20 and 2
    minutes before now give an average of 9. *)
Example average_of_the_last_quarter_hour :
  Hook.averageCount
    (Hook.computeKpi Hook.add_numbers Hook.div_numbers Hook.isoDate at_noon
       [mkDetectionObject (Str "2025-01-01T11:40:00.000Z") (Num 5) (Str "north") (Num 24)
          (Str "rtsp");
        stamped_recently] no_kpi) = Num 9.
Proof. vm_compute. reflexivity. Qed.

(** C3, as stated, fails: at 12:00 the buffer holds an event stamped 13:00
    (count 5) and one stamped 11:58 (count 9). Only the second lies in the
    15 minutes that end now, so the stated average is 9; the code has no
    upper bound on the window and answers 7. *)
Lemma average_counts_events_stamped_ahead :
  Hook.isoTime "2025-01-01T12:00:00.000Z" = Some at_noon /\
  let buf := Hook.buffer_after [stamped_ahead; stamped_recently] in
  Hook.averageCount
    (Hook.computeKpi Hook.add_numbers Hook.div_numbers Hook.isoDate at_noon buf no_kpi) =
    Num 7 /\
  Hook.mean_over_trailing_window Hook.add_numbers Hook.div_numbers Hook.isoDate at_noon buf =
    Num 9 /\
  Hook.averageCount
    (Hook.computeKpi Hook.add_numbers Hook.div_numbers Hook.isoDate at_noon buf no_kpi) <>
  Hook.mean_over_trailing_window Hook.add_numbers Hook.div_numbers Hook.isoDate at_noon buf.
Proof.
  split; [vm_compute; reflexivity|].
  cbv zeta. split; [|split].
  - vm_compute. reflexivity.
  - vm_compute. reflexivity.
  - vm_compute. discriminate.
Qed.

(** C3, amended: after an append the snapshot copies [currentCount], [fps]
    and [lastUpdate] from the object just appended, whatever its fields
    hold. [averageCount] is taken over exactly the buffered objects whose
    timestamp, as a [Date], is valid and not earlier than 15 minutes before
    the current wall-clock time (objects stamped later than now included),
    in buffer order: it is what JavaScript makes of their counts added to 0
    from left to right with [+], divided by their number with [/], and it
    is 0 when there is no such object. When these counts are whole numbers,
    none negative, with a total of at most 2^53, every addition is exact
    and [averageCount] is the quotient [/] gives of their total and their
    number. *)
Theorem kpi_after_append (js_add js_div : value -> value -> value)
    (Date_time : value -> option Z) (now : Z)
    (buf : list DetectionObject) (e : DetectionObject) (prev : Hook.KPIData) :
  let buf' := Hook.appendDetection buf e in
  let recent := List.filter (Hook.is_recent Date_time now) buf' in
  Hook.computeKpi js_add js_div Date_time now buf' prev =
    {| Hook.currentCount := o_count e;
       Hook.averageCount := Hook.mean_count js_add js_div recent;
       Hook.kpi_fps := o_fps e;
       Hook.kpi_lastUpdate := o_timestamp e |} /\
  (forall d, In d recent <->
     In d buf' /\
     exists t, Date_time (o_timestamp d) = Some t /\ (now - 900000 <= t)%Z) /\
  (recent <> [] ->
     Hook.mean_count js_add js_div recent =
     js_div (fold_left (fun sum d => js_add sum (o_count d)) recent (Num 0))
       (Num (inject_Z (Z.of_nat (length recent))))) /\
  (recent = [] -> Hook.mean_count js_add js_div recent = Num 0) /\
  (forall cs : list Z,
     (forall x y : Z, (0 <= x)%Z -> (0 <= y)%Z -> (x + y <= 2 ^ 53)%Z ->
        js_add (Num (inject_Z x)) (Num (inject_Z y)) = Num (inject_Z (x + y))) ->
     map o_count recent = map (fun c => Num (inject_Z c)) cs ->
     Forall (fun c => (0 <= c)%Z) cs ->
     (fold_right Z.add 0%Z cs <= 2 ^ 53)%Z ->
     recent <> [] ->
     Hook.mean_count js_add js_div recent =
     js_div (Num (inject_Z (fold_right Z.add 0%Z cs)))
       (Num (inject_Z (Z.of_nat (length cs))))).
Proof.
  intros buf' recent. split; [|split; [|split; [|split]]].
  - unfold Hook.computeKpi. unfold buf'. rewrite appendDetection_last. reflexivity.
  - intros d. unfold recent. rewrite filter_In, is_recent_spec. reflexivity.
  - intros Hne. destruct recent; [congruence | reflexivity].
  - intros ->. reflexivity.
  - intros cs Hadd Hmap Hcs Hle Hne.
    assert (Hlen : length cs = length recent).
    { rewrite <- (length_map (fun c => Num (inject_Z c)) cs), <- Hmap. apply length_map. }
    pose proof (sum_whole_counts js_add recent cs 0 Hadd Hmap Hcs (Z.le_refl 0) Hle) as Hsum.
    rewrite Hlen. destruct recent as [|d rest]; [congruence|].
    unfold Hook.mean_count, Hook.sum_counts. f_equal. exact Hsum.
Qed.

Lemma kpi_after_append_witness :
  Hook.mean_count Hook.add_numbers Hook.div_numbers [stamped_recently] =
  Hook.div_numbers (fold_left (fun sum d => Hook.add_numbers sum (o_count d))
                      [stamped_recently] (Num 0)) (Num (inject_Z (Z.of_nat 1))) /\
  Hook.mean_count Hook.add_numbers Hook.div_numbers [stamped_recently] =
  Hook.div_numbers (Num (inject_Z 9)) (Num (inject_Z 1)).
Proof.
  split.
  - refine (proj1 (proj2 (proj2
      (kpi_after_append Hook.add_numbers Hook.div_numbers Hook.isoDate at_noon []
         stamped_recently no_kpi))) _).
    vm_compute. discriminate.
  - refine (proj2 (proj2 (proj2 (proj2
      (kpi_after_append Hook.add_numbers Hook.div_numbers Hook.isoDate at_noon []
         stamped_recently no_kpi)))) [9%Z] _ _ _ _ _).
    + intros x y _ _ _. apply add_numbers_whole.
    + vm_compute. reflexivity.
    + repeat constructor. lia.
    + vm_compute. discriminate.
    + vm_compute. discriminate.
Defined.

(** ** The connection manager: retry, give up, poll *)

Lemma errored_retries (w : World) (id : nat) (closed : bool) :
  can_fail w id -> reconnectAttempts (this w) < 3 ->
  exists w',
    step w (Errored id closed) = (w', [OnStatusChange error]) /\
    reconnectAttempts (this w') = S (reconnectAttempts (this w)) /\
    timers w' =
      timers w ++ [mkTimer (2000 * Z.of_nat (S (reconnectAttempts (this w)))) true] /\
    pollingInterval (this w') = pollingInterval (this w) /\
    intervals w' = intervals w.
Proof.
  intros (c & Hc & Hopen) Hlt.
  destruct w as [[es pi sse n] cs ts ivs inf]. cbn in *.
  rewrite Hc. cbn [fmap option_fmap option_map].
  destruct (readyState c) eqn:Hrs; [| |congruence];
    (destruct n as [|[|[|n]]]; [| | |lia]); cbn;
    eexists; (split; [reflexivity|]); cbn; auto.
Qed.

Lemma errored_exhausted (w : World) (id : nat) (closed : bool) :
  can_fail w id -> promise_pending w id -> 3 <= reconnectAttempts (this w) ->
  starts_polling w (fst (step w (Errored id closed))) /\
  callbacks (snd (step w (Errored id closed))) =
    [OnStatusChange error; OnStatusChange connected].
Proof.
  intros (c & Hc & Hopen) Hp Hge. unfold promise_pending in Hp.
  destruct w as [[es pi sse n] cs ts ivs inf]. cbn in *.
  rewrite Hc in *. destruct c as [rs [ms ta] pr ca]. cbn in Hp, Hopen. injection Hp as ->.
  do 3 (destruct n as [|n]; [lia|]).
  cbn [fmap option_fmap option_map readyState].
  destruct rs; [| |congruence];
    cbn; unfold reject; cbn; rewrite !list_lookup_alter_eq, Hc; cbn;
    destruct ca; cbn; (split; [split; reflexivity | reflexivity]).
Qed.

Lemma timeout_polls (w : World) (id : nat) :
  timeout_armed w id -> promise_pending w id ->
  starts_polling w (fst (step w (ConnectTimeout id))) /\
  (forall cur, eventSource (this w) = Some cur ->
     readyState <$> calls (fst (step w (ConnectTimeout id))) !! cur =
     (fun _ => CLOSED) <$> calls w !! cur) /\
  callbacks (snd (step w (ConnectTimeout id))) = [OnStatusChange connected].
Proof.
  unfold timeout_armed, promise_pending. intros Ha Hp.
  destruct w as [[es pi sse n] cs ts ivs inf]. cbn in *.
  destruct (cs !! id) as [c|] eqn:Hc; [|discriminate].
  destruct c as [rs [ms ta] pr ca]. cbn in Ha, Hp. injection Ha as ->. injection Hp as ->.
  cbn [fmap option_fmap option_map timeoutArmed timeout pending].
  destruct es as [cur|]; cbn; unfold reject; cbn.
  - destruct (decide (cur = id)) as [->|Hne].
    + rewrite !list_lookup_alter_eq, Hc. cbn.
      destruct ca; cbn; (split; [split; reflexivity|]); (split; [|reflexivity]);
        intros ? [= <-]; rewrite !list_lookup_alter_eq, Hc; reflexivity.
    + rewrite list_lookup_alter_ne, list_lookup_alter_eq, Hc by congruence. cbn.
      destruct ca; cbn; (split; [split; reflexivity|]); (split; [|reflexivity]);
        intros ? [= <-];
        rewrite list_lookup_alter_ne, list_lookup_alter_eq, list_lookup_alter_ne
          by congruence;
        destruct (cs !! cur); reflexivity.
  - rewrite list_lookup_alter_eq, Hc. cbn.
    destruct ca; cbn; (split; [split; reflexivity|]); (split; [|reflexivity]);
      intros ? [=].
Qed.

Lemma settled_polling_same (h : nat) (w w' : World) :
  same_channels w w' -> settled_polling h w -> settled_polling h w'.
Proof.
  intros (Ht & Hc & Htm & Hi). unfold settled_polling, polls.
  rewrite Ht, Hc, Htm, Hi. auto.
Qed.

Lemma same_channels_refl (w : World) : same_channels w w.
Proof. repeat split. Qed.

Lemma settled_polling_quiet (h : nat) (w : World) (ev : Event) :
  settled_polling h w -> platform_event ev -> same_channels w (fst (step w ev)).
Proof.
  intros (Hsse & Hp & Hcalls & Htimers) [HnS HnT].
  destruct ev as [| |id|id p now|id closed|id|k|h'|o]; try congruence; unfold step.
  - destruct (calls w !! id) as [c|] eqn:Hc; cbn [fmap option_fmap option_map];
      [|apply same_channels_refl].
    destruct (Forall_lookup_1 _ _ _ _ Hcalls Hc) as [-> _]. apply same_channels_refl.
  - destruct (calls w !! id) as [c|] eqn:Hc; cbn [fmap option_fmap option_map];
      [|apply same_channels_refl].
    destruct (Forall_lookup_1 _ _ _ _ Hcalls Hc) as [-> _]. apply same_channels_refl.
  - destruct (calls w !! id) as [c|] eqn:Hc; cbn [fmap option_fmap option_map];
      [|apply same_channels_refl].
    destruct (Forall_lookup_1 _ _ _ _ Hcalls Hc) as [-> _]. apply same_channels_refl.
  - destruct (calls w !! id) as [c|] eqn:Hc; cbn [fmap option_fmap option_map];
      [|apply same_channels_refl].
    destruct (Forall_lookup_1 _ _ _ _ Hcalls Hc) as [_ ->]. apply same_channels_refl.
  - destruct (timers w !! k) as [t|] eqn:Ht; cbn [fmap option_fmap option_map];
      [|apply same_channels_refl].
    rewrite (Forall_lookup_1 _ _ _ _ Htimers Ht). apply same_channels_refl.
  - destruct (active <$> intervals w !! h') as [[|]|]; try apply same_channels_refl.
    repeat split.
  - destruct (inflight w) as [|n]; [apply same_channels_refl|].
    destruct o as [|now r f]; [repeat split|].
    unfold andThen, setInflight, pollData_resume.
    destruct (Api.getLatest now r f) as [d [|]]; repeat split.
Qed.

Lemma settled_polling_run (h : nat) (evs : list Event) (w : World) :
  settled_polling h w -> Forall platform_event evs -> settled_polling h (fst (run w evs)).
Proof.
  revert w. induction evs as [|ev evs IH]; intros w Hw Hevs; [exact Hw|].
  apply Forall_cons in Hevs as [Hev Hevs]. cbn [run].
  pose proof (settled_polling_quiet h w ev Hw Hev) as Hsame.
  destruct (step w ev) as [w1 e1]. cbn [fst] in Hsame.
  specialize (IH w1 (settled_polling_same h w w1 Hsame Hw) Hevs).
  destruct (run w1 evs) as [w2 e2]. exact IH.
Qed.

Lemma fourth_failure_polls :
  pollingInterval (this (fst (run fresh three_failures))) = None /\
  reconnectAttempts (this (fst (run fresh three_failures))) = 3 /\
  timers (fst (run fresh three_failures)) =
    [mkTimer 2000 false; mkTimer 4000 false; mkTimer 6000 true] /\
  settled_polling 0 (fst (run fresh fourth_failure)).
Proof.
  split; [reflexivity|]. split; [reflexivity|]. split; [reflexivity|].
  vm_compute. repeat split; repeat constructor.
Qed.

(** Polling is not final while a stream is still reconnecting by itself:
    the fourth [error] of an EventSource that never gave up starts polling,
    and when that EventSource opens afterwards the manager streams again,
    with the interval still ticking. *)
Lemma reconnecting_stream_reopens :
  let evs := [Start; Errored 0 false; Errored 0 false; Errored 0 false; Errored 0 false] in
  polls 0 (fst (run fresh evs)) /\
  isUsingSSE (this (fst (run fresh evs))) = false /\
  isUsingSSE (this (fst (run fresh (evs ++ [Opened 0])))) = true /\
  polls 0 (fst (run fresh (evs ++ [Opened 0]))).
Proof. cbv zeta. repeat split. Qed.

(** C1, as stated, fails. A connect timeout on the first attempt does not
    retry: with the counter at 0 it starts polling at once. And three failed
    attempts are not enough: after the third the manager has a retry pending
    and does not poll. *)
Lemma connect_timeout_skips_retries :
  let w1 := fst (step fresh Start) in
  reconnectAttempts (this w1) = 0 /\
  timeout_armed w1 0 /\
  ~ spec_failure_policy w1 (ConnectTimeout 0) /\
  polls 0 (fst (step w1 (ConnectTimeout 0))) /\
  timers (fst (step w1 (ConnectTimeout 0))) = [] /\
  pollingInterval (this (fst (run fresh three_failures))) = None.
Proof.
  cbv zeta. split; [reflexivity|]. split; [reflexivity|].
  split; [|repeat split].
  intros H. vm_compute in H. destruct H as [H _]. discriminate.
Qed.

(** C1, amended: every connection attempt arms a 10 s timeout. An [error]
    on a stream that can still fail is reported and, while
    [reconnectAttempts < 3], increments the counter and schedules a retry
    after 2000 ms times the new count, without polling; an [error] that finds
    the counter at 3 (the fourth failure in a row) rejects the attempt, and a
    connect timeout rejects it whatever the counter is and closes the current
    stream: rejecting a pending attempt starts the polling interval. Once the
    manager polls with every stream closed and no stream timer left, nothing
    the platform does changes that; only [start] or [stop] can. *)
Theorem retry_then_poll :
  (forall w k,
     calls (fst (startSSE k w)) =
       calls w ++ [mkCall CONNECTING (mkTimer 10000 true) Pending k] /\
     eventSource (this (fst (startSSE k w))) = Some (length (calls w))) /\
  (forall w id closed, can_fail w id -> reconnectAttempts (this w) < 3 ->
     exists w',
       step w (Errored id closed) = (w', [OnStatusChange error]) /\
       reconnectAttempts (this w') = S (reconnectAttempts (this w)) /\
       timers w' =
         timers w ++ [mkTimer (2000 * Z.of_nat (S (reconnectAttempts (this w)))) true] /\
       pollingInterval (this w') = pollingInterval (this w) /\
       intervals w' = intervals w) /\
  (forall w id closed,
     can_fail w id -> promise_pending w id -> 3 <= reconnectAttempts (this w) ->
     starts_polling w (fst (step w (Errored id closed))) /\
     callbacks (snd (step w (Errored id closed))) =
       [OnStatusChange error; OnStatusChange connected]) /\
  (forall w id, timeout_armed w id -> promise_pending w id ->
     starts_polling w (fst (step w (ConnectTimeout id))) /\
     (forall cur, eventSource (this w) = Some cur ->
        readyState <$> calls (fst (step w (ConnectTimeout id))) !! cur =
        (fun _ => CLOSED) <$> calls w !! cur) /\
     callbacks (snd (step w (ConnectTimeout id))) = [OnStatusChange connected]) /\
  (pollingInterval (this (fst (run fresh three_failures))) = None /\
   timers (fst (run fresh three_failures)) =
     [mkTimer 2000 false; mkTimer 4000 false; mkTimer 6000 true] /\
   settled_polling 0 (fst (run fresh fourth_failure)) /\
   settled_polling 0 (fst (run fresh [Start; ConnectTimeout 0]))) /\
  (forall h w evs, settled_polling h w -> Forall platform_event evs ->
     settled_polling h (fst (run w evs))).
Proof.
  split; [intros w k; split; reflexivity|].
  split; [exact errored_retries|].
  split; [exact errored_exhausted|].
  split; [exact timeout_polls|].
  split.
  - destruct fourth_failure_polls as (? & _ & ? & ?).
    repeat split; try assumption; vm_compute; repeat constructor.
  - intros h w evs. apply settled_polling_run.
Qed.

Lemma retry_then_poll_witness :
  settled_polling 0
    (fst (run (fst (run fresh [Start; ConnectTimeout 0]))
            [Tick 0; PollSettled ImportFailed; Opened 0; RetryTimer 0])).
Proof.
  refine (proj2 (proj2 (proj2 (proj2 (proj2 retry_then_poll)))) 0 _ _ _ _).
  - vm_compute. repeat split; repeat constructor.
  - repeat constructor; discriminate.
Defined.

(** ** Malformed messages *)

(** C6, as stated, fails: not every payload that cannot be decoded is
    dropped. The body of a poll response that is not JSON makes
    [response.json()] throw inside [getLatest], whose [catch] answers with
    a mock event; [pollData] passes it to the event callback, and the
    subscriber's buffer grows by one and its [lastUpdate] is set. *)
Lemma undecodable_poll_body_delivers_mock :
  let now := "2025-01-01T12:00:00.000Z" in
  let out := snd (step poll_in_flight (PollSettled (Fetched now half undecodable))) in
  let hs := Hook.deliver_all at_noon polling Hook.initial out in
  polls 0 poll_in_flight /\
  Api.getLatest_try now undecodable = Thrown SyntaxError /\
  callbacks out = [OnMessage (Api.generateMockData now half)] /\
  length (Hook.detections (Hook.initial (A := DetectionObject))) = 0 /\
  length (Hook.detections hs) = 1 /\
  Hook.lastUpdate (Hook.status (Hook.initial (A := DetectionObject))) = None /\
  Hook.lastUpdate (Hook.status hs) = Some at_noon.
Proof. cbv zeta. repeat split. Qed.

(** C6, amended: a message of the stream whose text is not JSON is dropped
    where it arrives: the manager and the platform state stay as they were,
    neither callback is called, so the subscriber's buffer and status stay
    as they were; the only thing done is one [console.error]. A poll
    response whose body is not JSON is not dropped: whatever its status,
    the poll that awaited it logs one warning and passes a mock event to
    the event callback; the manager's fields stay as they were, and the
    subscriber appends the mock event, becomes live and sets
    [lastUpdate]. *)
Theorem malformed_message_dropped (w : World) (id : nat) (text now : string)
    (clock : Z) (ct : ConnectionType) (hs : Hook.State DetectionObject) :
  fst (step w (Message id (Malformed text) now)) = w /\
  snd (step w (Message id (Malformed text) now)) =
    match readyState <$> calls w !! id with
    | Some OPEN => [Console "error" "Failed to parse SSE message:"]
    | _ => []
    end /\
  callbacks (snd (step w (Message id (Malformed text) now))) = [] /\
  Hook.deliver_all clock ct hs (snd (step w (Message id (Malformed text) now))) = hs /\
  (forall (r : Api.Draws) (status : Z) (n : nat),
     inflight w = S n ->
     let poll := step w (PollSettled (Fetched now r (Api.Response status (Malformed text)))) in
     fst poll = mkWorld (this w) (calls w) (timers w) (intervals w) n /\
     snd poll = [Console "warn" "API call failed, using mock data:";
                 OnMessage (Api.generateMockData now r)] /\
     Hook.deliver_all clock ct hs (snd poll) =
       Hook.mkState (Hook.appendDetection (Hook.detections hs) (Api.generateMockData now r))
         (Hook.mkStreamStatus true (Some clock) (Hook.connectionType (Hook.status hs)))).
Proof.
  split; [|split; [|split; [|split]]].
  1-4: unfold step; destruct (readyState <$> calls w !! id) as [[| |]|]; reflexivity.
  intros r status n Hn. cbv zeta. unfold step. rewrite Hn.
  unfold andThen, setInflight, pollData_resume, Api.getLatest, Api.getLatest_try.
  destruct (Api.response_ok status); repeat split.
Qed.

Lemma malformed_message_dropped_witness :
  snd (step poll_in_flight
         (PollSettled (Fetched "2025-01-01T12:00:00.000Z" half undecodable))) =
  [Console "warn" "API call failed, using mock data:";
   OnMessage (Api.generateMockData "2025-01-01T12:00:00.000Z" half)].
Proof.
  refine (proj1 (proj2 (proj2 (proj2 (proj2 (proj2
            (malformed_message_dropped poll_in_flight 0 "<html>" "2025-01-01T12:00:00.000Z"
               at_noon polling Hook.initial)))) half 200%Z 1 _))).
  vm_compute. reflexivity.
Defined.

(** The same holds for the text [null], which parses but has no fields. *)
Lemma null_message_dropped (w : World) (id : nat) (now : string) :
  fst (step w (Message id (Parsed Null) now)) = w /\
  callbacks (snd (step w (Message id (Parsed Null) now))) = [].
Proof.
  unfold step. destruct (readyState <$> calls w !! id) as [[| |]|]; repeat split.
Qed.

(** ** Polling *)

Lemma step_keeps_intervals (w : World) (ev : Event) :
  ev <> Stop -> exists k, intervals (fst (step w ev)) = intervals w ++ k.
Proof.
  intros Hev. destruct w as [[es pi sse n] cs ts ivs inf].
  destruct ev as [| |id|id p now|id closed|id|k|h|o]; try congruence;
    unfold step, start, startSSE, onopen, onerror, onConnectTimeout, onRetryTimer,
      onmessage, pollData, pollData_resume, reject, startPolling, resolve,
      clearTimeout, close, startSSE, andThen, setCall, setThis, setTimer, setInflight,
      emit, skip;
    cbn; repeat (case_match; simplify_eq; cbn in * );
    first [ by (exists []; rewrite app_nil_r) | by eexists ].
Qed.

(** C5, as stated, fails: while the manager polls, a fetch that is rejected
    is answered by [getLatest] with mock data, which goes to the event
    callback; the status callback is not called at all. *)
Lemma fetch_failure_reports_no_error :
  polls 0 polling_world /\
  inflight polling_world = 1 /\
  snd (step polling_world
         (PollSettled (Fetched "2025-01-01T12:00:00.000Z" half Api.FetchRejected))) =
    [Console "warn" "API call failed, using mock data:";
     OnMessage (Api.generateMockData "2025-01-01T12:00:00.000Z" half)] /\
  ~ In (OnStatusChange error)
      (snd (step polling_world
              (PollSettled (Fetched "2025-01-01T12:00:00.000Z" half Api.FetchRejected)))).
Proof.
  split; [split; reflexivity|]. split; [reflexivity|]. split; [reflexivity|].
  intros [H|[H|[]]]; discriminate.
Qed.

(** C5, amended: a failed fetch during polling is absorbed by [getLatest]:
    the poll that awaited it logs a warning and hands a mock event to the
    event callback, no [error] status is reported and nothing is thrown; no
    event other than [stop] removes or alters an interval, which
    [startPolling] sets to 2000 ms, and each tick of a live interval starts
    another poll. *)
Theorem polling_survives_fetch_failure :
  (forall w n now r f e,
     inflight w = S n -> Api.getLatest_try now f = Thrown e ->
     step w (PollSettled (Fetched now r f)) =
       (mkWorld (this w) (calls w) (timers w) (intervals w) n,
        [Console "warn" "API call failed, using mock data:";
         OnMessage (Api.generateMockData now r)])) /\
  (forall w ev h i,
     ev <> Stop -> intervals w !! h = Some i ->
     intervals (fst (step w ev)) !! h = Some i) /\
  (forall w h,
     active <$> intervals w !! h = Some true ->
     step w (Tick h) =
       (mkWorld (this w) (calls w) (timers w) (intervals w) (S (inflight w)), [])) /\
  (forall w,
     intervals (fst (startPolling w)) = intervals w ++ [mkInterval 2000 true] /\
     pollingInterval (this (fst (startPolling w))) = Some (length (intervals w))).
Proof.
  split; [|split; [|split]].
  - intros w n now r f e Hn Hf. unfold step. rewrite Hn.
    unfold andThen, setInflight, pollData_resume, Api.getLatest. rewrite Hf. reflexivity.
  - intros w ev h i Hev Hi. destruct (step_keeps_intervals w ev Hev) as [k ->].
    apply lookup_app_l_Some, Hi.
  - intros w h Hh. unfold step. rewrite Hh. reflexivity.
  - intros w. split; reflexivity.
Qed.

Lemma polling_survives_fetch_failure_witness :
  step polling_world
    (PollSettled (Fetched "2025-01-01T12:00:00.000Z" half (Api.Response 503 (Malformed "")))) =
  (mkWorld (this polling_world) (calls polling_world) (timers polling_world)
     (intervals polling_world) 0,
   [Console "warn" "API call failed, using mock data:";
    OnMessage (Api.generateMockData "2025-01-01T12:00:00.000Z" half)]).
Proof.
  apply (proj1 polling_survives_fetch_failure polling_world 0
           "2025-01-01T12:00:00.000Z" half (Api.Response 503 (Malformed ""))
           (HttpError 503)); reflexivity.
Defined.

(** ** [stop] *)

(** C4, as stated, fails: a second [stop] calls the status callback again. *)
Lemma second_stop_reports_again :
  let stopped := fst (run fresh [Start; Stop]) in
  step stopped Stop = (stopped, [OnStatusChange disconnected]) /\
  callbacks (snd (step stopped Stop)) <> [].
Proof. cbv zeta. split; [reflexivity|]. vm_compute. discriminate. Qed.

(** [stop] does not disarm the connect timeout of a stream it closes: when
    the timeout fires, its rejection starts polling in the stopped manager. *)
Lemma connect_timeout_outlives_stop :
  let stopped := fst (run fresh [Start; Stop]) in
  timeout_armed stopped 0 /\
  polls 0 (fst (step stopped (ConnectTimeout 0))) /\
  callbacks (snd (step stopped (ConnectTimeout 0))) = [OnStatusChange connected].
Proof. cbv zeta. repeat split. Qed.

(** C4, amended: [stop] closes the current stream and clears the current
    interval, if there is one, forgets both and reports [disconnected]; the
    stream it closed and the interval it cleared fire nothing afterwards, and
    a retry timer that fires finds no stream and does nothing; a second
    [stop] throws nothing, releases nothing and changes nothing, and reports
    [disconnected] once more. *)
Theorem stop_releases_and_reports (w : World) :
  let stopped := fst (step w Stop) in
  snd (step w Stop) =
    match eventSource (this w) with Some id => [CloseEventSource id] | None => [] end ++
    match pollingInterval (this w) with Some h => [ClearInterval h] | None => [] end ++
    [OnStatusChange disconnected] /\
  eventSource (this stopped) = None /\
  pollingInterval (this stopped) = None /\
  getConnectionType (this stopped) = offline /\
  (forall id ev, eventSource (this w) = Some id -> event_of_source id ev ->
     step stopped ev = (stopped, [])) /\
  (forall h, pollingInterval (this w) = Some h -> step stopped (Tick h) = (stopped, [])) /\
  (forall k, snd (step stopped (RetryTimer k)) = []) /\
  step stopped Stop = (stopped, [OnStatusChange disconnected]).
Proof.
  destruct w as [[es pi sse n] cs ts ivs inf]. cbv zeta.
  split; [destruct es, pi; reflexivity|].
  split; [destruct es, pi; reflexivity|].
  split; [destruct es, pi; reflexivity|].
  split; [destruct es, pi; reflexivity|].
  split; [|split].
  - intros id ev [= ->] Hev.
    assert (Hclosed : readyState <$> calls (fst (step (mkWorld (mkManager (Some id) pi sse n) cs ts ivs inf) Stop)) !! id = Some CLOSED \/
                      readyState <$> calls (fst (step (mkWorld (mkManager (Some id) pi sse n) cs ts ivs inf) Stop)) !! id = None).
    { destruct pi; cbn; rewrite list_lookup_alter_eq; destruct (cs !! id); cbn; auto. }
    destruct Hev as [-> | [(p & now & ->) | (closed & ->)]]; unfold step at 1;
      destruct Hclosed as [-> | ->]; reflexivity.
  - intros h [= ->].
    assert (Hoff : active <$> intervals (fst (step (mkWorld (mkManager es (Some h) sse n) cs ts ivs inf) Stop)) !! h = Some false \/
                   active <$> intervals (fst (step (mkWorld (mkManager es (Some h) sse n) cs ts ivs inf) Stop)) !! h = None).
    { destruct es; cbn; rewrite list_lookup_alter_eq; destruct (ivs !! h); cbn; auto. }
    unfold step at 1. destruct Hoff as [-> | ->]; reflexivity.
  - split; [|destruct es, pi; reflexivity].
    intros k. unfold step at 1.
    assert (Hnone : eventSource (this (fst (step (mkWorld (mkManager es pi sse n) cs ts ivs inf) Stop))) = None)
      by (destruct es, pi; reflexivity).
    destruct (pending <$> timers _ !! k) as [[|]|]; [|reflexivity..].
    unfold andThen, setTimer, onRetryTimer. cbn [this eventSource].
    rewrite Hnone. reflexivity.
Qed.

Lemma stop_releases_and_reports_witness :
  step (fst (step polling_world Stop)) (Tick 0) = (fst (step polling_world Stop), []).
Proof.
  refine (proj1 (proj2 (proj2 (proj2 (proj2 (proj2
    (stop_releases_and_reports polling_world)))))) 0 _).
  reflexivity.
Defined.

(** ** [start] *)

Lemma filter_none {A : Type} (f : A -> bool) (l : list A) :
  Forall (fun x => f x = false) l -> List.filter f l = [].
Proof.
  induction 1 as [|x l Hx _ IH]; [reflexivity|]. cbn. rewrite Hx. exact IH.
Qed.

Lemma stop_closes_owned (w : World) :
  owned w ->
  Forall (fun c => is_open c = false) (calls (fst (step w Stop))) /\
  Forall (fun i => active i = false) (intervals (fst (step w Stop))).
Proof.
  intros [Hes Hpi]. destruct w as [[es pi sse n] cs ts ivs inf]. cbn in Hes, Hpi.
  assert (Hcs : Forall (fun c => is_open c = false)
                  (match es with
                   | Some id => alter (with_readyState CLOSED) id cs
                   | None => cs
                   end)).
  { apply Forall_lookup_2. intros j c Hj. destruct (is_open c) eqn:Ho; [|reflexivity].
    destruct es as [id|].
    - destruct (decide (id = j)) as [->|Hne].
      + rewrite list_lookup_alter_eq in Hj. destruct (cs !! j); [|discriminate].
        injection Hj as <-. discriminate Ho.
      + rewrite list_lookup_alter_ne in Hj by exact Hne.
        specialize (Hes j c Hj Ho). congruence.
    - specialize (Hes j c Hj Ho). discriminate. }
  assert (Hivs : Forall (fun i => active i = false)
                   (match pi with
                    | Some h => alter (fun i => mkInterval (period i) false) h ivs
                    | None => ivs
                    end)).
  { apply Forall_lookup_2. intros j i Hj. destruct (active i) eqn:Ha; [|reflexivity].
    destruct pi as [h|].
    - destruct (decide (h = j)) as [->|Hne].
      + rewrite list_lookup_alter_eq in Hj. destruct (ivs !! j); [|discriminate].
        injection Hj as <-. discriminate Ha.
      + rewrite list_lookup_alter_ne in Hj by exact Hne.
        specialize (Hpi j i Hj Ha). congruence.
    - specialize (Hpi j i Hj Ha). discriminate. }
  destruct es, pi; split; assumption.
Qed.

(** C8, as stated, fails: a second [start] is not ignored. It opens a second
    EventSource while the first is still connecting; the first is neither
    closed nor referenced any more, and two channels are live. *)
Lemma second_start_opens_second_source :
  let started := fst (step fresh Start) in
  channels started = 1 /\
  step started Start <> (started, []) /\
  snd (step started Start) = [NewEventSource 1] /\
  readyState <$> calls (fst (step started Start)) !! 0 = Some CONNECTING /\
  eventSource (this (fst (step started Start))) = Some 1 /\
  channels (fst (step started Start)) = 2.
Proof. cbv zeta. repeat split. discriminate. Qed.

(** Switching off one entry of a list takes it out of the count of the
    entries that are on, when it was on. *)
Lemma filter_alter_off {A : Type} (p : A -> bool) (f : A -> A) (i : nat) (l : list A) :
  (forall x, p (f x) = false) ->
  length (List.filter p (alter f i l)) +
    match l !! i with Some x => if p x then 1 else 0 | None => 0 end =
  length (List.filter p l).
Proof.
  intros Hf. revert i. induction l as [|x l IH]; intros [|i]; cbn; try reflexivity.
  - rewrite Hf. destruct (p x); cbn; lia.
  - specialize (IH i). destruct (p x); cbn; [f_equal|]; exact IH.
Qed.

(** [stop] then [start] in any world: what the manager held is released,
    one stream is opened, everything else stays live. *)
Lemma restart_count (w : World) :
  channels (fst (run w restart)) + held w = S (channels w).
Proof.
  destruct w as [[es pi sse n] cs ts ivs inf].
  unfold channels, open_sources, ticking, held, held_source, held_interval, restart.
  pose proof (fun i => filter_alter_off is_open (with_readyState CLOSED) i cs
                         (fun _ => eq_refl)) as Hc.
  pose proof (fun h => filter_alter_off active (fun i => mkInterval (period i) false) h ivs
                         (fun _ => eq_refl)) as Hi.
  destruct es as [id|], pi as [h|]; cbn;
    rewrite List.filter_app, length_app; cbn;
    try specialize (Hc id); try specialize (Hi h); lia.
Qed.

(** C8, amended: [start] has no guard. Every call opens one more
    EventSource and makes it the current one, leaving every earlier stream
    and every interval as it was, so the live channels go up by one. A
    [stop] then [start], as in [restart], releases the channels the manager
    holds a reference to and no other, and opens one stream: the live
    channels afterwards are those before, less the ones held, plus one.
    Exactly one is live afterwards when every live channel was the
    manager's; it is not so in general: after a single [start],
    [startPolling] run twice leaves an interval that the manager no longer
    references, and a restart there leaves two channels live. *)
Theorem start_is_unguarded :
  (forall w,
     step w Start =
       (mkWorld (with_eventSource (Some (length (calls w))) (this w))
          (calls w ++ [mkCall CONNECTING (mkTimer 10000 true) Pending StartCatch])
          (timers w) (intervals w) (inflight w),
        [NewEventSource (length (calls w))]) /\
     (forall id c, calls w !! id = Some c -> calls (fst (step w Start)) !! id = Some c) /\
     channels (fst (step w Start)) = S (channels w)) /\
  (forall w, channels (fst (run w restart)) + held w = S (channels w)) /\
  (forall w, owned w -> channels (fst (run w [Stop; Start])) = 1) /\
  (two_intervals =
     fst (run fresh [Start; Errored 0 false; Errored 0 false; Errored 0 true; RetryTimer 0;
                     Errored 1 true; RetryTimer 1; Errored 2 true]) /\
   ~ owned two_intervals /\
   channels two_intervals = 2 /\
   held two_intervals = 1 /\
   channels (fst (run two_intervals restart)) = 2).
Proof.
  split; [|split; [|split]].
  - intros w. split; [reflexivity|]. split.
    + intros id c Hc. cbn. apply lookup_app_l_Some, Hc.
    + unfold channels, open_sources, ticking. cbn.
      rewrite List.filter_app, length_app. cbn. lia.
  - exact restart_count.
  - intros w Hw. destruct (stop_closes_owned w Hw) as [Hcs Hivs].
    cbn [run]. destruct (step w Stop) as [w1 e1]. cbn [fst] in Hcs, Hivs.
    unfold channels, open_sources, ticking. cbn.
    rewrite List.filter_app, length_app, (filter_none _ _ Hcs), (filter_none _ _ Hivs).
    reflexivity.
  - split; [vm_compute; reflexivity|]. split; [|vm_compute; repeat split].
    intros [_ Hpi]. specialize (Hpi 0 (mkInterval 2000 true)).
    assert (H : pollingInterval (this two_intervals) = Some 1) by (vm_compute; reflexivity).
    rewrite H in Hpi. discriminate Hpi; vm_compute; reflexivity.
Qed.

Lemma start_is_unguarded_witness :
  channels (fst (run (fst (step fresh Start)) [Stop; Start])) = 1.
Proof.
  apply (proj1 (proj2 (proj2 start_is_unguarded)) (fst (step fresh Start))).
  split.
  - intros [|id] c Hc Ho; [reflexivity|discriminate Hc].
  - intros h i Hi. discriminate Hi.
Defined.

(** * Further properties of the connection manager *)

Lemma run_app (w : World) (evs1 evs2 : list Event) :
  fst (run w (evs1 ++ evs2)) = fst (run (fst (run w evs1)) evs2).
Proof.
  revert w. induction evs1 as [|ev evs1 IH]; intros w; [reflexivity|].
  cbn [run app]. destruct (step w ev) as [w1 e1]. specialize (IH w1).
  destruct (run w1 (evs1 ++ evs2)) as [w2 e2]. destruct (run w1 evs1) as [w3 e3].
  exact IH.
Qed.

Lemma run_invariant (P : World -> Prop) (Q : Event -> Prop) :
  (forall w ev, Q ev -> P w -> P (fst (step w ev))) ->
  forall evs w, Forall Q evs -> P w -> P (fst (run w evs)).
Proof.
  intros Hstep. induction evs as [|ev evs IH]; intros w Hevs Hw; [exact Hw|].
  apply Forall_cons in Hevs as [Hev Hevs]. cbn [run].
  specialize (Hstep w ev Hev Hw). destruct (step w ev) as [w1 e1].
  specialize (IH w1 Hevs Hstep). destruct (run w1 evs) as [w2 e2]. exact IH.
Qed.

(** X1: a message that parses to anything but [null], arriving on an open
    stream, is normalised and handed to the event callback exactly once; the
    manager and the platform state stay as they were, and the subscriber
    appends the event and stamps [lastUpdate]. *)
Theorem message_delivered_once (w : World) (id : nat) (data : value) (now : string)
    (clock : Z) (ct : ConnectionType) (hs : Hook.State DetectionObject) :
  readyState <$> calls w !! id = Some OPEN -> data <> Null -> data <> Undefined ->
  exists d,
    transform now data = Ok d /\
    step w (Message id (Parsed data) now) = (w, [OnMessage d]) /\
    Hook.detections (Hook.deliver_all clock ct hs (snd (step w (Message id (Parsed data) now)))) =
      Hook.appendDetection (Hook.detections hs) d /\
    Hook.lastUpdate (Hook.status (Hook.deliver_all clock ct hs
      (snd (step w (Message id (Parsed data) now))))) = Some clock.
Proof.
  intros Hopen Hnull Hundef. unfold step. rewrite Hopen. unfold onmessage.
  destruct data; try congruence; cbn; eexists; repeat split.
Qed.

Lemma message_delivered_once_witness :
  exists d,
    transform "2025-01-01T12:00:00.000Z" (Obj [("count", Num 3)]) = Ok d /\
    step (fst (run fresh [Start; Opened 0]))
      (Message 0 (Parsed (Obj [("count", Num 3)])) "2025-01-01T12:00:00.000Z") =
      (fst (run fresh [Start; Opened 0]), [OnMessage d]).
Proof.
  destruct (message_delivered_once (fst (run fresh [Start; Opened 0])) 0
              (Obj [("count", Num 3)]) "2025-01-01T12:00:00.000Z" 0%Z sse Hook.initial)
    as (d & Hd & Hstep & _); [reflexivity | discriminate | discriminate |].
  exists d. split; assumption.
Defined.

Lemma step_opened (w : World) (id : nat) :
  readyState <$> calls w !! id = Some CONNECTING ->
  step w (Opened id) =
    (mkWorld (mkManager (eventSource (this w)) (pollingInterval (this w)) true 0)
       (alter (fun c => match promise c with Pending => with_promise Resolved c | _ => c end) id
          (alter (with_timeoutArmed false) id (alter (with_readyState OPEN) id (calls w))))
       (timers w) (intervals w) (inflight w),
     [OnStatusChange connected]).
Proof. intros Hc. unfold step. rewrite Hc. reflexivity. Qed.

(** X2: when a connecting stream opens, the retry counter is back at 0, the
    manager streams, [connected] is reported once, and the connect timeout of
    that attempt is disarmed: if its timer event comes, nothing happens. *)
Theorem open_resets_and_disarms (w : World) (id : nat) :
  readyState <$> calls w !! id = Some CONNECTING ->
  let w' := fst (step w (Opened id)) in
  reconnectAttempts (this w') = 0 /\
  isUsingSSE (this w') = true /\
  snd (step w (Opened id)) = [OnStatusChange connected] /\
  readyState <$> calls w' !! id = Some OPEN /\
  timeoutArmed <$> calls w' !! id = Some false /\
  step w' (ConnectTimeout id) = (w', []).
Proof.
  intros Hc. cbv zeta. rewrite (step_opened w id Hc). cbn [fst snd this calls].
  destruct (calls w !! id) as [c|] eqn:Hcs; [|discriminate].
  assert (Harm : timeoutArmed <$>
            alter (fun c => match promise c with Pending => with_promise Resolved c | _ => c end) id
              (alter (with_timeoutArmed false) id (alter (with_readyState OPEN) id (calls w))) !! id
            = Some false).
  { rewrite !list_lookup_alter_eq, Hcs. cbn. destruct (promise c); reflexivity. }
  repeat split.
  - rewrite !list_lookup_alter_eq, Hcs. cbn. destruct (promise c); reflexivity.
  - exact Harm.
  - unfold step. cbn [calls]. rewrite Harm. reflexivity.
Qed.

Lemma open_resets_and_disarms_witness :
  step (fst (run fresh [Start; Opened 0])) (ConnectTimeout 0) =
  (fst (run fresh [Start; Opened 0]), []).
Proof.
  apply (open_resets_and_disarms (fst (step fresh Start)) 0). reflexivity.
Defined.

(** X3: an [error] on a stream whose promise is already settled, with the
    retry counter at 3, only reports [error]: no retry is scheduled, polling
    is not started and the manager's fields stay as they are. A stream that
    opened once and then fails four times while reconnecting by itself ends
    there. *)
Theorem settled_stream_error_is_dead_end (w : World) (id : nat) (closed : bool) :
  can_fail w id -> promise <$> calls w !! id <> Some Pending ->
  3 <= reconnectAttempts (this w) ->
  snd (step w (Errored id closed)) = [OnStatusChange error] /\
  this (fst (step w (Errored id closed))) = this w /\
  timers (fst (step w (Errored id closed))) = timers w /\
  intervals (fst (step w (Errored id closed))) = intervals w /\
  length (calls (fst (step w (Errored id closed)))) = length (calls w).
Proof.
  intros (c & Hc & Hopen) Hp Hge.
  destruct w as [[es pi sse n] cs ts ivs inf]. cbn in *.
  rewrite Hc in *. destruct c as [rs [ms ta] pr ca]. cbn in Hp, Hopen.
  do 3 (destruct n as [|n]; [lia|]).
  cbn [fmap option_fmap option_map readyState].
  destruct rs; [| |congruence];
    cbn; unfold reject; cbn; rewrite !list_lookup_alter_eq, Hc; cbn;
    (destruct pr; [congruence| |]); cbn; rewrite ?length_alter; repeat split.
Qed.

Lemma settled_stream_error_is_dead_end_witness :
  snd (step flaky (Errored 0 false)) = [OnStatusChange error] /\
  this (fst (step flaky (Errored 0 false))) = this flaky /\
  timers (fst (step flaky (Errored 0 false))) = timers flaky /\
  intervals (fst (step flaky (Errored 0 false))) = intervals flaky /\
  length (calls (fst (step flaky (Errored 0 false)))) = length (calls flaky).
Proof.
  apply (settled_stream_error_is_dead_end flaky 0 false).
  - eexists. split; [vm_compute; reflexivity | discriminate].
  - vm_compute. discriminate.
  - vm_compute. lia.
Defined.
Lemma step_attempts_bounded (w : World) (ev : Event) :
  reconnectAttempts (this w) <= 3 -> reconnectAttempts (this (fst (step w ev))) <= 3.
Proof.
  intros Hle. destruct w as [[es pi sse n] cs ts ivs inf]. cbn in Hle.
  destruct ev as [| |id|id p now|id closed|id|k|h|o];
    unfold step, start, stop, startSSE, onopen, onerror, onConnectTimeout, onRetryTimer,
      onmessage, pollData, pollData_resume, reject, startPolling, resolve,
      clearTimeout, close, startSSE, andThen, setCall, setThis, setTimer, setInflight,
      setIntervalAt, emit, skip, maxReconnectAttempts;
    cbn; repeat (case_match; simplify_eq; cbn in * );
    repeat match goal with
           | H : (_ <=? _) = true |- _ => apply Nat.leb_le in H
           | H : (_ <? _) = true |- _ => apply Nat.ltb_lt in H
           end; lia.
Qed.

(** X4: the retry counter never exceeds 3, whatever the platform and the
    caller do. *)
Theorem attempts_bounded (evs : list Event) :
  reconnectAttempts (this (fst (run fresh evs))) <= 3.
Proof.
  apply (run_invariant (fun w => reconnectAttempts (this w) <= 3) (fun _ => True)).
  - intros w ev _. apply step_attempts_bounded.
  - apply Forall_forall. auto.
  - vm_compute. lia.
Qed.

(** X5: [restart] (stop, then start) keeps the retry counter and the
    streaming flag: only an [open] resets the counter. After a restart with
    the counter at 3, the first [error] of the new stream starts polling
    without a single retry. *)
Theorem restart_keeps_counter (w : World) :
  let w' := fst (run w restart) in
  reconnectAttempts (this w') = reconnectAttempts (this w) /\
  isUsingSSE (this w') = isUsingSSE (this w) /\
  eventSource (this w') = Some (length (calls w)) /\
  calls w' !! length (calls w) = Some (mkCall CONNECTING (mkTimer 10000 true) Pending StartCatch) /\
  (reconnectAttempts (this w) = 3 ->
   forall closed, starts_polling w' (fst (step w' (Errored (length (calls w)) closed)))).
Proof.
  cbv zeta.
  assert (H : reconnectAttempts (this (fst (run w restart))) = reconnectAttempts (this w) /\
              isUsingSSE (this (fst (run w restart))) = isUsingSSE (this w) /\
              eventSource (this (fst (run w restart))) = Some (length (calls w)) /\
              calls (fst (run w restart)) !! length (calls w) =
                Some (mkCall CONNECTING (mkTimer 10000 true) Pending StartCatch)).
  { destruct w as [[es pi sse n] cs ts ivs inf].
    destruct es as [id|], pi as [h|]; cbn; rewrite ?length_alter;
      (repeat split; try reflexivity);
      apply list_lookup_middle; rewrite ?length_alter; reflexivity. }
  destruct H as (Ha & Hs & He & Hc).
  split; [exact Ha|]. split; [exact Hs|]. split; [exact He|]. split; [exact Hc|].
  intros H3 closed. apply errored_exhausted.
  - eexists. split; [exact Hc | discriminate].
  - unfold promise_pending. rewrite Hc. reflexivity.
  - rewrite Ha. lia.
Qed.

Lemma restart_keeps_counter_witness :
  starts_polling (fst (run exhausted restart))
    (fst (step (fst (run exhausted restart)) (Errored (length (calls exhausted)) true))).
Proof.
  apply (proj2 (proj2 (proj2 (proj2 (restart_keeps_counter exhausted)))) eq_refl true).
Defined.

Lemma armed_pending_alter (f : SSECall -> SSECall) (id : nat) (cs : list SSECall) :
  (forall c, (timeoutArmed c = true -> promise c = Pending) ->
             timeoutArmed (f c) = true -> promise (f c) = Pending) ->
  Forall (fun c => timeoutArmed c = true -> promise c = Pending) cs ->
  Forall (fun c => timeoutArmed c = true -> promise c = Pending) (alter f id cs).
Proof. intros Hf Hcs. apply Forall_alter; [exact Hcs|]. intros c _. apply Hf. Qed.

Lemma step_armed_pending (w : World) (ev : Event) :
  armed_pending w -> armed_pending (fst (step w ev)).
Proof.
  unfold armed_pending. intros Hinv.
  destruct w as [[es pi sse n] cs ts ivs inf]. cbn in Hinv.
  destruct ev as [| |id|id p now|id closed|id|k|h|o];
    unfold step, start, stop, startSSE, onopen, onerror, onConnectTimeout, onRetryTimer,
      onmessage, pollData, pollData_resume, reject, startPolling, resolve,
      clearTimeout, close, startSSE, andThen, setCall, setThis, setTimer, setInflight,
      setIntervalAt, emit, skip, maxReconnectAttempts;
    cbn; repeat (case_match; simplify_eq; cbn in * );
    try match goal with
        | |- context [alter ?f ?i (alter ?g ?j (alter ?h ?i ?l))] =>
            destruct (decide (i = j)) as [<-|Hne];
            [| rewrite (list_alter_alter_ne f g (alter h i l) i j Hne)]
        end;
    rewrite ?list_alter_alter_eq;
    try assumption;
    try (apply Forall_app_2; [assumption | repeat constructor]);
    repeat (apply armed_pending_alter;
            [ intros [rs [ms ta] pr ca] Hc; cbn in *;
              try discriminate; try (destruct pr; cbn; auto; discriminate); auto |]);
    try assumption.
Qed.

(** X6: in every world the manager can reach, an armed connect timeout
    belongs to a promise that is still pending; so whenever a connect timeout
    fires, also after [stop], it starts the polling interval and reports
    [connected]. *)
Theorem connect_timeout_always_polls (evs : list Event) (id : nat) :
  let w := fst (run fresh evs) in
  timeout_armed w id ->
  promise_pending w id /\
  starts_polling w (fst (step w (ConnectTimeout id))) /\
  callbacks (snd (step w (ConnectTimeout id))) = [OnStatusChange connected].
Proof.
  cbv zeta. intros Harm.
  assert (Hinv : armed_pending (fst (run fresh evs))).
  { apply (run_invariant armed_pending (fun _ => True)).
    - intros w ev _. apply step_armed_pending.
    - apply Forall_forall. auto.
    - constructor. }
  assert (Hp : promise_pending (fst (run fresh evs)) id).
  { unfold timeout_armed, promise_pending in *.
    destruct (calls (fst (run fresh evs)) !! id) as [c|] eqn:Hc; [|discriminate].
    cbn in Harm |- *. injection Harm as Harm.
    rewrite (Forall_lookup_1 _ _ _ _ Hinv Hc Harm). reflexivity. }
  split; [exact Hp|].
  destruct (timeout_polls _ id Harm Hp) as (H1 & _ & H2). split; assumption.
Qed.

Lemma connect_timeout_always_polls_witness :
  starts_polling (fst (run fresh [Start; Stop]))
    (fst (step (fst (run fresh [Start; Stop])) (ConnectTimeout 0))).
Proof.
  apply (connect_timeout_always_polls [Start; Stop] 0). reflexivity.
Defined.

(** X7: [stop] touches only what the manager references: every other
    stream and every other interval is left as it is, and no timer and no
    poll in flight is cancelled. *)
Theorem stop_releases_only_current (w : World) :
  (forall id c, calls w !! id = Some c -> eventSource (this w) <> Some id ->
     calls (fst (step w Stop)) !! id = Some c) /\
  (forall h i, intervals w !! h = Some i -> pollingInterval (this w) <> Some h ->
     intervals (fst (step w Stop)) !! h = Some i) /\
  timers (fst (step w Stop)) = timers w /\
  (forall id, timeoutArmed <$> calls (fst (step w Stop)) !! id = timeoutArmed <$> calls w !! id) /\
  inflight (fst (step w Stop)) = inflight w.
Proof.
  destruct w as [[es pi sse n] cs ts ivs inf].
  split; [|split; [|split; [|split]]].
  - intros id c Hc Hne. destruct es as [cur|], pi as [h|]; cbn in *; try exact Hc;
      rewrite list_lookup_alter_ne by congruence; exact Hc.
  - intros h i Hi Hne. destruct es as [cur|], pi as [h'|]; cbn in *; try exact Hi;
      rewrite list_lookup_alter_ne by congruence; exact Hi.
  - destruct es, pi; reflexivity.
  - intros id. destruct es as [cur|], pi as [h|]; cbn; try reflexivity;
      (destruct (decide (cur = id)) as [->|Hne];
       [rewrite list_lookup_alter_eq; destruct (cs !! id); reflexivity
       |rewrite list_lookup_alter_ne by exact Hne; reflexivity]).
  - destruct es, pi; reflexivity.
Qed.

Lemma stop_releases_only_current_witness :
  calls (fst (step (fst (run fresh [Start; Start])) Stop)) !! 0 =
  Some (mkCall CONNECTING (mkTimer 10000 true) Pending StartCatch).
Proof.
  apply (proj1 (stop_releases_only_current (fst (run fresh [Start; Start]))) 0).
  - reflexivity.
  - discriminate.
Defined.

(** X8: a poll that is in flight when [stop] is called is not cancelled:
    when it settles, its event still reaches the event callback. *)
Theorem poll_in_flight_outlives_stop (w : World) (n : nat) (now : string)
    (r : Api.Draws) (f : Api.FetchOutcome) :
  inflight w = S n ->
  callbacks (snd (step (fst (step w Stop)) (PollSettled (Fetched now r f)))) =
    [OnMessage (fst (Api.getLatest now r f))].
Proof.
  intros Hn.
  assert (Hin : inflight (fst (step w Stop)) = S n).
  { destruct w as [[es pi sse k] cs ts ivs inf]. cbn in Hn. subst inf.
    destruct es, pi; reflexivity. }
  unfold step at 1. rewrite Hin.
  unfold andThen, setInflight, pollData_resume.
  destruct (Api.getLatest now r f) as [d [|]]; reflexivity.
Qed.

Lemma poll_in_flight_outlives_stop_witness :
  callbacks (snd (step (fst (step polling_world Stop))
    (PollSettled (Fetched "2025-01-01T12:00:00.000Z" half Api.FetchRejected)))) =
  [OnMessage (fst (Api.getLatest "2025-01-01T12:00:00.000Z" half Api.FetchRejected))].
Proof.
  apply (poll_in_flight_outlives_stop polling_world 0). reflexivity.
Defined.

(** X9: a retry timer fires once, and opens a new stream only when the
    manager's current stream is closed: while that stream is connecting or
    open, or when there is none, the timer does nothing. *)
Theorem retry_timer_needs_closed_stream (w : World) (k : nat) :
  pending <$> timers w !! k = Some true ->
  let current := eventSource (this w) ≫= fun cur => readyState <$> calls w !! cur in
  snd (step w (RetryTimer k)) =
    match current with
    | Some CLOSED => [NewEventSource (length (calls w))]
    | _ => []
    end /\
  calls (fst (step w (RetryTimer k))) =
    match current with
    | Some CLOSED => calls w ++ [mkCall CONNECTING (mkTimer 10000 true) Pending RetryCatch]
    | _ => calls w
    end /\
  pending <$> timers (fst (step w (RetryTimer k))) !! k = Some false /\
  step (fst (step w (RetryTimer k))) (RetryTimer k) = (fst (step w (RetryTimer k)), []).
Proof.
  intros Hk. cbv zeta.
  assert (Hfired : pending <$> alter (fun t => mkTimer (delay t) false) k (timers w) !! k
                   = Some false).
  { rewrite list_lookup_alter_eq. destruct (timers w !! k); [reflexivity|discriminate]. }
  assert (Htimers : timers (fst (step w (RetryTimer k))) =
                    alter (fun t => mkTimer (delay t) false) k (timers w)).
  { unfold step. rewrite Hk. destruct w as [[es pi sse n] cs ts ivs inf]. cbn.
    destruct es as [cur|]; [|reflexivity]. cbn.
    destruct (cs !! cur) as [c|]; [|reflexivity]. destruct (readyState c); reflexivity. }
  split; [|split; [|split]].
  - unfold step. rewrite Hk. destruct w as [[es pi sse n] cs ts ivs inf]. cbn.
    destruct es as [cur|]; [|reflexivity]. cbn.
    destruct (cs !! cur) as [c|]; [|reflexivity]. cbn. destruct (readyState c); reflexivity.
  - unfold step. rewrite Hk. destruct w as [[es pi sse n] cs ts ivs inf]. cbn.
    destruct es as [cur|]; [|reflexivity]. cbn.
    destruct (cs !! cur) as [c|]; [|reflexivity]. cbn. destruct (readyState c); reflexivity.
  - rewrite Htimers. exact Hfired.
  - unfold step at 1. rewrite Htimers, Hfired. reflexivity.
Qed.

Lemma retry_timer_needs_closed_stream_witness :
  snd (step (fst (run fresh [Start; Errored 0 false])) (RetryTimer 0)) = [].
Proof.
  apply (proj1 (retry_timer_needs_closed_stream (fst (run fresh [Start; Errored 0 false])) 0
                  eq_refl)).
Defined.

Lemma owned_in_alter (f : SSECall -> SSECall) (es : option nat) (id : nat)
    (cs : list SSECall) :
  (forall c, cs !! id = Some c -> is_open (f c) = true -> is_open c = true) ->
  owned_in es cs -> owned_in es (alter f id cs).
Proof.
  intros Hf Hcs j c Hj Ho. destruct (decide (id = j)) as [->|Hne].
  - rewrite list_lookup_alter_eq in Hj. destruct (cs !! j) as [c0|] eqn:Hc0; [|discriminate].
    injection Hj as <-. apply (Hcs j c0 Hc0). apply Hf; [reflexivity | exact Ho].
  - rewrite list_lookup_alter_ne in Hj by exact Hne. apply (Hcs j c Hj Ho).
Qed.

Lemma owned_in_none_closed (cs : list SSECall) :
  Forall (fun c => is_open c = false) cs -> forall es, owned_in es cs.
Proof.
  intros Hcs es id c Hc Ho. pose proof (Forall_lookup_1 _ _ _ _ Hcs Hc) as Hcl.
  cbn in Hcl. congruence.
Qed.

Lemma owned_in_closed_current (cur : nat) (c : SSECall) (cs : list SSECall) :
  owned_in (Some cur) cs -> cs !! cur = Some c -> is_open c = false ->
  Forall (fun c => is_open c = false) cs.
Proof.
  intros Hcs Hc Hcl. apply Forall_lookup_2. intros j c' Hj.
  destruct (is_open c') eqn:Ho; [|reflexivity].
  pose proof (Hcs j c' Hj Ho) as [= ->]. congruence.
Qed.

Lemma owned_in_snoc (cs : list SSECall) (c : SSECall) :
  Forall (fun c => is_open c = false) cs -> owned_in (Some (length cs)) (cs ++ [c]).
Proof.
  intros Hcs j c' Hj Ho. apply lookup_app_Some in Hj as [Hj | [Hlen Hj]].
  - pose proof (Forall_lookup_1 _ _ _ _ Hcs Hj) as Hcl. cbn in Hcl. congruence.
  - destruct (j - length cs) as [|m] eqn:Hm; [|destruct m; discriminate Hj].
    f_equal. lia.
Qed.

Lemma owned_in_at_most_one (es : option nat) (cs : list SSECall) :
  owned_in es cs -> length (List.filter is_open cs) <= 1.
Proof.
  revert es. induction cs as [|c cs IH]; intros es Hcs; [cbn; lia|].
  cbn [List.filter]. destruct (is_open c) eqn:Ho.
  - pose proof (Hcs 0 c eq_refl Ho) as ->.
    rewrite (filter_none is_open cs); [cbn; lia|].
    apply Forall_lookup_2. intros j c' Hj. destruct (is_open c') eqn:Ho'; [|reflexivity].
    pose proof (Hcs (S j) c' Hj Ho'). discriminate.
  - apply (IH (pred <$> es)). intros j c' Hj Ho'.
    rewrite (Hcs (S j) c' Hj Ho'). reflexivity.
Qed.

Lemma step_sources_owned (w : World) (ev : Event) :
  ev <> Start -> sources_owned w -> sources_owned (fst (step w ev)).
Proof.
  unfold sources_owned. intros Hev Hinv.
  destruct w as [[es pi sse n] cs ts ivs inf]. cbn in Hinv.
  destruct ev as [| |id|id p now|id closed|id|k|h|o]; try congruence.
  - (* Stop *)
    assert (Hall : Forall (fun c => is_open c = false)
                     (match es with
                      | Some id => alter (with_readyState CLOSED) id cs
                      | None => cs
                      end)).
    { apply Forall_lookup_2. intros j c Hj. destruct (is_open c) eqn:Ho; [|reflexivity].
      destruct es as [id|].
      - destruct (decide (id = j)) as [->|Hne].
        + rewrite list_lookup_alter_eq in Hj. destruct (cs !! j); [|discriminate].
          injection Hj as <-. discriminate Ho.
        + rewrite list_lookup_alter_ne in Hj by exact Hne.
          pose proof (Hinv j c Hj Ho). congruence.
      - pose proof (Hinv j c Hj Ho). discriminate. }
    destruct es, pi; cbn; apply owned_in_none_closed; exact Hall.
  - (* Opened *)
    unfold step. cbn [calls].
    destruct (cs !! id) as [c|] eqn:Hc; [|exact Hinv]. cbn [fmap option_fmap option_map].
    destruct (readyState c) eqn:Hrs; try exact Hinv. cbn.
    do 2 (apply owned_in_alter; [intros [rs tm pr ca] _; cbn; try destruct pr; cbn; intros; first [assumption | discriminate] |]).
    apply owned_in_alter; [|exact Hinv].
    intros c0 Hc0 _. rewrite Hc in Hc0. injection Hc0 as <-. unfold is_open. rewrite Hrs.
    reflexivity.
  - (* Message *)
    unfold step. cbn [calls]. destruct (readyState <$> cs !! id) as [[| |]|]; try exact Hinv.
    unfold onmessage. destruct (Json.bind _ _); exact Hinv.
  - (* Errored *)
    unfold step. cbn [calls].
    destruct (cs !! id) as [c|] eqn:Hc; [|exact Hinv]. cbn [fmap option_fmap option_map].
    assert (Hpres : readyState c <> CLOSED ->
              owned_in es (alter (with_timeoutArmed false) id
                 (alter (with_readyState (if closed then CLOSED else CONNECTING)) id cs))).
    { intros Hopen. apply owned_in_alter; [intros [rs tm pr ca] _; cbn; try destruct pr; cbn; intros; first [assumption | discriminate] |].
      apply owned_in_alter; [|exact Hinv].
      intros c0 Hc0 _. rewrite Hc in Hc0. injection Hc0 as <-. unfold is_open.
      destruct (readyState c); congruence. }
    destruct (readyState c) eqn:Hrs; try exact Hinv;
      unfold onerror, onConnectTimeout, reject, startPolling, pollData, clearTimeout, close,
      andThen, setCall, setThis, setInflight, emit, skip, maxReconnectAttempts;
      cbn; repeat (case_match; simplify_eq; cbn in * ); simplify_eq; cbn;
      first [ apply Hpres; congruence
            | apply owned_in_alter; [intros [rs tm pr ca] _; cbn; try destruct pr; cbn; intros; first [assumption | discriminate] |]; apply Hpres; congruence ].
  - (* ConnectTimeout *)
    unfold step. cbn [calls].
    destruct (timeoutArmed <$> cs !! id) as [[|]|]; try exact Hinv.
    unfold onerror, onConnectTimeout, reject, startPolling, pollData, clearTimeout, close,
      andThen, setCall, setThis, setInflight, emit, skip, maxReconnectAttempts;
      cbn; repeat (case_match; simplify_eq; cbn in * ); simplify_eq; cbn;
      repeat (apply owned_in_alter; [intros [rs tm pr ca] _; cbn; try destruct pr; cbn; intros; first [assumption | discriminate] |]);
      exact Hinv.
  - (* RetryTimer *)
    unfold step. cbn [timers].
    destruct (pending <$> ts !! k) as [[|]|]; try exact Hinv.
    unfold andThen, setTimer, onRetryTimer, startSSE, skip. cbn.
    destruct es as [cur|]; cbn; [|exact Hinv].
    destruct (cs !! cur) as [c|] eqn:Hc; cbn; [|exact Hinv].
    destruct (readyState c) eqn:Hrs; cbn; try exact Hinv.
    apply owned_in_snoc. apply (owned_in_closed_current cur c); [exact Hinv | exact Hc |].
    unfold is_open. rewrite Hrs. reflexivity.
  - (* Tick *)
    unfold step. cbn [intervals]. destruct (active <$> ivs !! h) as [[|]|]; exact Hinv.
  - (* PollSettled *)
    unfold step. cbn [inflight]. destruct inf as [|m]; [exact Hinv|].
    destruct o as [|now r f]; [exact Hinv|].
    unfold andThen, setInflight, pollData_resume.
    destruct (Api.getLatest now r f) as [d [|]]; exact Hinv.
Qed.

(** X10: as long as [start] is not called a second time, at most one
    EventSource is connecting or open at any moment, through every retry,
    timeout, stop and poll: a new stream is only opened once the previous
    one is closed. *)
Theorem one_stream_without_second_start (evs : list Event) :
  Forall (fun ev => ev <> Start) evs ->
  sources_owned (fst (run fresh (Start :: evs))) /\
  open_sources (fst (run fresh (Start :: evs))) <= 1.
Proof.
  intros Hevs.
  assert (Hinv : sources_owned (fst (run fresh (Start :: evs)))).
  { change (Start :: evs) with ([Start] ++ evs). rewrite run_app.
    apply (run_invariant sources_owned (fun ev => ev <> Start)).
    - intros w ev. apply step_sources_owned.
    - exact Hevs.
    - intros [|j] c Hj Ho; [reflexivity | discriminate Hj]. }
  split; [exact Hinv|]. apply (owned_in_at_most_one _ _ Hinv).
Qed.

Lemma one_stream_without_second_start_witness :
  open_sources (fst (run fresh (Start :: [Errored 0 true; RetryTimer 0; Stop; ConnectTimeout 1]))) <= 1.
Proof.
  apply (one_stream_without_second_start [Errored 0 true; RetryTimer 0; Stop; ConnectTimeout 1]).
  repeat constructor; discriminate.
Defined.

Lemma ticking_snoc (ivs : list Interval) :
  length (List.filter active (ivs ++ [mkInterval 2000 true])) =
  S (length (List.filter active ivs)).
Proof. rewrite List.filter_app, length_app. cbn. lia. Qed.

(** X11: starting to poll never clears an interval that already ticks.
    When an exhausted [error] of a pending attempt starts polling, there is
    one more ticking interval than before; the earlier ones go on, and a
    [stop] afterwards clears only the newest: the one the manager held
    before keeps ticking. *)
Theorem polling_intervals_pile_up (w : World) (id : nat) (closed : bool) :
  can_fail w id -> promise_pending w id -> 3 <= reconnectAttempts (this w) ->
  let w' := fst (step w (Errored id closed)) in
  ticking w' = S (ticking w) /\
  (forall h i, intervals w !! h = Some i -> intervals w' !! h = Some i) /\
  (forall h i, intervals w !! h = Some i ->
     intervals (fst (step w' Stop)) !! h = Some i).
Proof.
  intros Hf Hp Hge. cbv zeta.
  destruct (errored_exhausted w id closed Hf Hp Hge) as [[Hh Hi _ _ _] _].
  set (w' := fst (step w (Errored id closed))) in *.
  split; [|split].
  - unfold ticking. rewrite Hi. apply ticking_snoc.
  - intros h i Hhi. rewrite Hi. apply lookup_app_l_Some, Hhi.
  - intros h i Hhi.
    assert (Hlt : h < length (intervals w)) by (eapply lookup_lt_Some; exact Hhi).
    destruct w' as [[es pi sse n] cs ts ivs inf]. cbn in Hh, Hi. subst pi ivs.
    destruct es; cbn; (rewrite list_lookup_alter_ne by lia); apply lookup_app_l_Some, Hhi.
Qed.

Lemma polling_intervals_pile_up_witness :
  ticking polling_with_stale_retry = 1 /\
  ticking (fst (step polling_with_stale_retry (Errored 2 true))) = 2 /\
  ticking (fst (step (fst (step polling_with_stale_retry (Errored 2 true))) Stop)) = 1.
Proof.
  split; [reflexivity|].
  destruct (polling_intervals_pile_up polling_with_stale_retry 2 true) as (Ht & _ & _).
  - eexists. split; [vm_compute; reflexivity | discriminate].
  - vm_compute. reflexivity.
  - vm_compute. lia.
  - split; [rewrite Ht; reflexivity | vm_compute; reflexivity].
Defined.

(** * Further properties of [api.ts] *)

(** X12: with draws in [0, 1), a mock event always fits the
    [BisonDetection] interface: its movement is one of the five directions,
    its source is [rtsp] or [sample], its count is a non-negative integer
    and its frame rate is non-negative; no field is undefined. *)
Theorem mock_data_valid (now : string) (r : Api.Draws) :
  Api.draws_ok r ->
  Types.structurally_valid (Api.generateMockData now r) = true /\
  In (o_movement (Api.generateMockData now r)) Api.movements /\
  In (o_source (Api.generateMockData now r)) Api.sources.
Proof.
  intros Hr.
  destruct (mock_fields now r Hr) as (c & q & mv & src & m & s & -> & Hc & Hlo & _ & Hm & Hs).
  split; [apply (valid_fields now c q mv src m s); [lia | lra | exact Hm | exact Hs]|].
  cbn [o_movement o_source]. split.
  - apply (movement_of_In mv m Hm).
  - apply (source_of_In src s Hs).
Qed.

Lemma mock_data_valid_witness :
  Types.structurally_valid (Api.generateMockData "2025-01-01T12:00:00.000Z" half) = true.
Proof.
  apply (mock_data_valid "2025-01-01T12:00:00.000Z" half).
  unfold Api.draws_ok, Api.unit_interval, half. cbn. unfold Qle, Qlt. cbn. lia.
Defined.

Lemma map_transform_ok (nows : nat -> string) (items : list value) (i : nat) :
  Forall (fun item => item <> Null /\ item <> Undefined) items ->
  exists ds,
    Api.map_transform nows i items = Ok ds /\
    length ds = length items /\
    forall k item, items !! k = Some item ->
      exists d, transform (nows (i + k)) item = Ok d /\ ds !! k = Some d.
Proof.
  revert i. induction items as [|item items IH]; intros i Hall.
  - exists []. split; [reflexivity|]. split; [reflexivity|]. intros k item Hk. discriminate Hk.
  - apply Forall_cons in Hall as [[Hn Hu] Hall].
    destruct (IH (S i) Hall) as (ds & Hds & Hlen & Hk).
    assert (Hd : exists d, transform (nows i) item = Ok d).
    { destruct item; try congruence; eexists; reflexivity. }
    destruct Hd as [d Hd]. exists (d :: ds).
    split; [cbn [Api.map_transform]; rewrite Hd; cbn [Json.bind]; rewrite Hds; reflexivity|].
    split; [cbn; rewrite Hlen; reflexivity|].
    intros [|k] it Hit.
    + injection Hit as <-. exists d. rewrite Nat.add_0_r. split; [exact Hd | reflexivity].
    + destruct (Hk k it Hit) as (d' & Hd' & Hl). exists d'.
      replace (i + S k) with (S i + k) by lia. split; [exact Hd' | exact Hl].
Qed.

Lemma map_transform_null (nows : nat -> string) (items : list value) (i : nat) :
  In Null items -> Api.map_transform nows i items = Thrown TypeError.
Proof.
  revert i. induction items as [|item items IH]; intros i Hin; [destruct Hin|].
  destruct Hin as [-> | Hin]; [reflexivity|].
  cbn [Api.map_transform]. destruct (transform (nows i) item) as [d|e] eqn:Hd.
  - cbn [Json.bind]. rewrite (IH (S i) Hin). reflexivity.
  - destruct item; cbn in Hd; try discriminate; injection Hd as <-; reflexivity.
Qed.

Lemma mockLoop_closed (toISOString : Z -> string) (now intervalMs : Z)
    (draws : nat -> Api.Draws) (i : nat) (data : list DetectionObject) :
  Api.mockLoop toISOString now intervalMs draws i data =
  data ++ map (fun k => Api.mockPoint toISOString now intervalMs draws (i - k)) (seq 0 (S i)).
Proof.
  revert data. induction i as [|i IH]; intros data; [reflexivity|].
  cbn [Api.mockLoop]. rewrite IH, <- app_assoc. f_equal.
  change (seq 0 (S (S i))) with (0 :: seq 1 (S i)).
  rewrite <- seq_shift, map_cons, map_map. reflexivity.
Qed.

Lemma lookup_map {A B : Type} (f : A -> B) (l : list A) (k : nat) :
  map f l !! k = f <$> l !! k.
Proof. apply (list_lookup_fmap f l k). Qed.

Lemma mock_interval (minutes : Z) : (minutes * 60 * 1000 / 100 = minutes * 600)%Z.
Proof. replace (minutes * 60 * 1000)%Z with (minutes * 600 * 100)%Z by lia. apply Z.div_mul. lia. Qed.

Lemma generateMockDataArray_closed (toISOString : Z -> string) (now minutes : Z)
    (draws : nat -> Api.Draws) :
  Api.generateMockDataArray toISOString now minutes draws =
  map (fun k => Api.mockPoint toISOString now (minutes * 600) draws (99 - k)) (seq 0 100).
Proof.
  unfold Api.generateMockDataArray. rewrite mockLoop_closed, mock_interval. reflexivity.
Qed.

(** X13: [getWindow] maps a 2xx body that is an array without [null]
    items item by item, in order, through the record transform; a [null]
    item anywhere, or a body that is not an array, discards the whole
    answer, and like every other failure yields the 100 mock points. *)
Theorem getWindow_maps_or_mocks (toISOString : Z -> string) (nows : nat -> string)
    (now minutes : Z) (draws : nat -> Api.Draws) (status : Z) (items : list value) :
  Api.response_ok status = true ->
  (Forall (fun item => item <> Null /\ item <> Undefined) items ->
   let ds := Api.getWindow toISOString nows now minutes draws
               (Api.Response status (Parsed (Arr items))) in
   length ds = length items /\
   forall k item, items !! k = Some item ->
     exists d, transform (nows k) item = Ok d /\ ds !! k = Some d) /\
  (In Null items ->
   Api.getWindow toISOString nows now minutes draws
     (Api.Response status (Parsed (Arr items))) =
   Api.generateMockDataArray toISOString now minutes draws) /\
  (forall f e, Api.getWindow_try nows f = Thrown e ->
   Api.getWindow toISOString nows now minutes draws f =
     Api.generateMockDataArray toISOString now minutes draws /\
   length (Api.getWindow toISOString nows now minutes draws f) = 100) /\
  (forall props,
   Api.getWindow_try nows (Api.Response status (Parsed (Obj props))) = Thrown TypeError).
Proof.
  intros Hok. split; [|split; [|split]].
  - intros Hall. cbv zeta. unfold Api.getWindow, Api.getWindow_try. rewrite Hok.
    cbn [JSON_parse Json.bind].
    destruct (map_transform_ok nows items 0 Hall) as (ds & -> & Hlen & Hk).
    split; [exact Hlen | exact Hk].
  - intros Hin. unfold Api.getWindow, Api.getWindow_try. rewrite Hok.
    cbn [JSON_parse Json.bind]. rewrite (map_transform_null nows items 0 Hin). reflexivity.
  - intros f e Hf. unfold Api.getWindow. rewrite Hf. split; [reflexivity|].
    rewrite generateMockDataArray_closed, length_map, length_seq. reflexivity.
  - intros props. unfold Api.getWindow_try. rewrite Hok. reflexivity.
Qed.

Lemma getWindow_maps_or_mocks_witness :
  Api.getWindow (fun _ => "") (fun _ => "2025-01-01T12:00:00.000Z") at_noon 15 (fun _ => half)
    (Api.Response 200 (Parsed (Arr [Obj [("count", Num 3)]; Null]))) =
  Api.generateMockDataArray (fun _ => "") at_noon 15 (fun _ => half).
Proof.
  refine (proj1 (proj2 (getWindow_maps_or_mocks (fun _ => "")
            (fun _ => "2025-01-01T12:00:00.000Z") at_noon 15 (fun _ => half) 200
            [Obj [("count", Num 3)]; Null] _)) _).
  - reflexivity.
  - right. left. reflexivity.
Defined.

(** X14: the mock history has exactly 100 points, stamped oldest first at
    [now - (99 - k) * minutes * 600] ms for k = 0..99: evenly spaced, the
    last one at [now]. For a non-negative number of minutes every stamp lies
    in the requested window, and with draws in [0, 1) every point fits the
    [BisonDetection] interface. *)
Theorem mock_history_shape (toISOString : Z -> string) (now minutes : Z)
    (draws : nat -> Api.Draws) :
  let arr := Api.generateMockDataArray toISOString now minutes draws in
  length arr = 100 /\
  map o_timestamp arr = map (fun t => Str (toISOString t)) (mockTimes now minutes) /\
  last (mockTimes now minutes) = Some now /\
  (forall k t, mockTimes now minutes !! k = Some t ->
     mockTimes now minutes !! S k = Some (t + minutes * 600)%Z \/ k = 99) /\
  ((0 <= minutes)%Z ->
   Forall (fun t => (now - minutes * 60 * 1000 <= t <= now)%Z) (mockTimes now minutes)) /\
  ((forall i, Api.draws_ok (draws i)) ->
   Forall (fun d => Types.structurally_valid d = true) arr).
Proof.
  cbv zeta. rewrite generateMockDataArray_closed. unfold mockTimes.
  split; [rewrite length_map, length_seq; reflexivity|].
  split; [rewrite !map_map; reflexivity|].
  split; [change (seq 0 100) with (seq 0 99 ++ [99]); rewrite map_app; cbn [map];
          rewrite last_snoc; f_equal; change (Z.of_nat (99 - 99)) with 0%Z; lia|].
  split; [|split].
  - intros k t Hk. rewrite lookup_map in Hk.
    destruct (seq 0 100 !! k) as [i|] eqn:Hi; [|discriminate].
    apply lookup_seq in Hi as [-> Hlt]. injection Hk as <-. cbn [Nat.add].
    destruct (decide (k = 99)) as [->|Hne]; [right; reflexivity|left].
    rewrite lookup_map, lookup_seq_lt by lia. cbn [fmap option_fmap option_map Nat.add].
    f_equal. replace (Z.of_nat (99 - k)) with (Z.of_nat (99 - S k) + 1)%Z by lia. lia.
  - intros Hmin. apply List.Forall_forall. intros t Ht. apply in_map_iff in Ht as (i & <- & Hi).
    apply in_seq in Hi. nia.
  - intros Hdraws. apply List.Forall_forall. intros d Hd. apply in_map_iff in Hd as (i & <- & _).
    unfold Api.mockPoint.
    destruct (mock_fields (toISOString now) (draws (99 - i)) (Hdraws _))
      as (c & q & mv & src & m & s & -> & Hc & Hlo & _ & Hm & Hs).
    cbn [o_count o_movement o_fps o_source].
    apply (valid_fields _ c q mv src m s); [lia | lra | exact Hm | exact Hs].
Qed.

Lemma mock_history_shape_witness :
  Forall (fun t => (at_noon - 15 * 60 * 1000 <= t <= at_noon)%Z) (mockTimes at_noon 15).
Proof.
  apply (proj1 (proj2 (proj2 (proj2 (proj2
    (mock_history_shape (fun _ => "") at_noon 15 (fun _ => half))))))).
  lia.
Defined.

(** * Further properties of the hook and of the components that read it *)

Lemma slice_last_slice_last {A : Type} (n m : nat) (l : list A) :
  n <= m -> Hook.slice_last n (Hook.slice_last m l) = Hook.slice_last n l.
Proof.
  intros Hnm. unfold Hook.slice_last. rewrite drop_drop, length_drop. f_equal. lia.
Qed.

(** X16: the recent-events table shows the last min(N, 20) events of the
    buffer, newest first: row [i] is the event [i] places from the end, the
    first row is the event the KPI snapshot takes as latest, and the rows
    are the last 20 events that arrived, whatever the buffer has evicted. *)
Theorem recent_rows_newest_first {A : Type} (events : list A) :
  let rows := Components.recentData (Hook.buffer_after events) in
  rows = reverse (Hook.slice_last 20 events) /\
  length rows = min (length events) 20 /\
  head rows = last (Hook.buffer_after events) /\
  (forall i, i < min (length events) 20 -> rows !! i = events !! (length events - S i)).
Proof.
  cbv zeta.
  assert (Hrows : Components.recentData (Hook.buffer_after events) =
                  reverse (Hook.slice_last 20 events)).
  { unfold Components.recentData. rewrite buffer_after_slice.
    rewrite (slice_last_slice_last 20 Hook.MAX_DATA_POINTS events)
      by (unfold Hook.MAX_DATA_POINTS; lia).
    reflexivity. }
  rewrite !Hrows.
  split; [reflexivity|].
  split; [rewrite length_reverse; apply slice_last_length|].
  split.
  - rewrite head_reverse, buffer_after_slice. unfold Hook.slice_last.
    rewrite !last_lookup, !length_drop, !lookup_drop.
    destruct events as [|e events]; [reflexivity|]. cbn [length]. f_equal.
    unfold Hook.MAX_DATA_POINTS. lia.
  - intros i Hi. rewrite reverse_lookup by (rewrite slice_last_length; exact Hi).
    unfold Hook.slice_last. rewrite lookup_drop, length_drop. f_equal. lia.
Qed.

Lemma recent_rows_newest_first_witness :
  Components.recentData (Hook.buffer_after (seq 0 30)) !! 0 = seq 0 30 !! 29.
Proof.
  apply (proj2 (proj2 (proj2 (recent_rows_newest_first (seq 0 30)))) 0).
  vm_compute. lia.
Defined.

Lemma deliver_messages_status (clock : Z) (ct : ConnectionType)
    (ds : list DetectionObject) (s : Hook.State DetectionObject) :
  Hook.connectionType (Hook.status (Hook.deliver_all clock ct s (map OnMessage ds))) =
    Hook.connectionType (Hook.status s) /\
  (ds <> [] ->
   Hook.isLive (Hook.status (Hook.deliver_all clock ct s (map OnMessage ds))) = true /\
   Hook.lastUpdate (Hook.status (Hook.deliver_all clock ct s (map OnMessage ds))) = Some clock).
Proof.
  revert s. induction ds as [|d ds IH]; intros s; [split; [reflexivity | congruence]|].
  unfold Hook.deliver_all in *. cbn [map fold_left Hook.deliver].
  destruct (IH (Hook.handleNewDetection clock d s)) as [Hct Hlive].
  split; [rewrite Hct; reflexivity|]. intros _.
  destruct ds as [|d' ds]; [split; reflexivity|]. apply Hlive. discriminate.
Qed.

(** X17: a status report never touches the buffer or [lastUpdate], and an
    event never touches the connection type. So after an [error] or
    [disconnected] report the events that still arrive mark the hook live
    again while its connection type stays [offline], and the header reads
    "Offline", until the manager reports [connected] again. *)
Theorem live_but_offline_after_error (clock : Z) (ct : ConnectionType)
    (cs : Status) (d : DetectionObject) (ds : list DetectionObject)
    (s : Hook.State DetectionObject) :
  cs <> connected ->
  let s1 := Hook.deliver clock ct s (OnStatusChange cs) in
  let s2 := Hook.deliver_all clock ct s (OnStatusChange cs :: map OnMessage (d :: ds)) in
  Hook.detections s1 = Hook.detections s /\
  Hook.lastUpdate (Hook.status s1) = Hook.lastUpdate (Hook.status s) /\
  Hook.isLive (Hook.status s1) = false /\
  Hook.isLive (Hook.status s2) = true /\
  Hook.connectionType (Hook.status s2) = offline /\
  Components.getStatusText (Hook.status s2) = "Offline" /\
  Components.getStatusColor (Hook.status s2) = "bg-offline text-white".
Proof.
  intros Hcs. cbv zeta.
  assert (H1 : Hook.connectionType (Hook.status (Hook.deliver clock ct s (OnStatusChange cs)))
               = offline /\
               Hook.isLive (Hook.status (Hook.deliver clock ct s (OnStatusChange cs))) = false).
  { destruct cs; [congruence| |]; split; reflexivity. }
  destruct H1 as [Hoff Hdead].
  split; [reflexivity|]. split; [destruct cs; reflexivity|]. split; [exact Hdead|].
  change (Hook.deliver_all clock ct s (OnStatusChange cs :: map OnMessage (d :: ds)))
    with (Hook.deliver_all clock ct (Hook.deliver clock ct s (OnStatusChange cs))
            (map OnMessage (d :: ds))).
  destruct (deliver_messages_status clock ct (d :: ds)
              (Hook.deliver clock ct s (OnStatusChange cs))) as [Hct Hlive].
  destruct (Hlive ltac:(discriminate)) as [Hl _].
  split; [exact Hl|].
  assert (Hfinal : Hook.connectionType (Hook.status
            (Hook.deliver_all clock ct (Hook.deliver clock ct s (OnStatusChange cs))
               (map OnMessage (d :: ds)))) = offline) by (rewrite Hct; exact Hoff).
  split; [exact Hfinal|].
  unfold Components.getStatusText, Components.getStatusColor. rewrite Hfinal.
  split; reflexivity.
Qed.

Lemma live_but_offline_after_error_witness :
  Components.getStatusText (Hook.status
    (Hook.deliver_all 0 polling Hook.initial
       (OnStatusChange error ::
        map OnMessage [Api.generateMockData "2025-01-01T12:00:00.000Z" half]))) = "Offline".
Proof.
  apply (live_but_offline_after_error 0 polling error
           (Api.generateMockData "2025-01-01T12:00:00.000Z" half) [] Hook.initial).
  discriminate.
Defined.
